(** * rollup-plugin-oxc-resolve: the specifier resolution algorithm

    A shallow embedding of the plugin's resolution hook and of the
    orchestrator [resolveLikeNode], in the two variants the repository
    carries:

    - [Src]: [src/index.ts];
    - [Pkg]: the source listed after the README (the variant that exports
      [defineRollupOxcResolveOptions]).

    JavaScript strings are modelled by [string].  Every character the code
    inspects ([?], [/], [\], [.], [@], [:], NUL) is ASCII, and no multi-byte
    UTF-8 sequence contains an ASCII byte, so splitting, prefix and suffix
    tests agree with the UTF-16 view of the source.

    The collaborators the plugin consumes (the oxc resolver built in
    [buildStart], Node's [path] module, the list of platform builtins,
    [process.cwd()], the build's [input], the host's [this.resolve]) are
    fields of an environment record [Env]; calls to the resolver, warnings
    and calls back into the host are recorded, in order, in a log.  The
    condition names are only pushed onto and handed to the resolver, so
    their bookkeeping is not part of the model. *)

From Stdlib Require Import String Ascii List Bool Arith Lia.
Import ListNotations.
Local Open Scope string_scope.
Local Open Scope list_scope.

(** String concatenation, [a + b] in the source. *)
Infix "+++" := String.append (right associativity, at level 60).

(** ** JavaScript values and string primitives *)

(** An optional property of an options object: the key may be missing, or
    present with value [undefined], or present with a value.  The
    difference matters to [Object.hasOwn] and to object spread. *)
Inductive JsOpt (A : Type) : Type :=
| Absent
| Undefined
| Present (a : A).
Arguments Absent {A}.
Arguments Undefined {A}.
Arguments Present {A} a.

Module Js.

(** [{...d, ...u}] on one key: an own key of [u] wins, even when its
    value is [undefined]. *)
Definition spread {A} (d u : JsOpt A) : JsOpt A :=
  match u with
  | Absent => d
  | _ => u
  end.

(** [const { k = dflt } = o]: the default applies when the value is
    [undefined] (key missing or not). *)
Definition orDefault {A} (o : JsOpt A) (dflt : A) : A :=
  match o with
  | Present a => a
  | _ => dflt
  end.

(** [Object.hasOwn(o, k)]. *)
Definition hasOwn {A} (o : JsOpt A) : bool :=
  match o with
  | Absent => false
  | _ => true
  end.

(** Truthiness of a string: only the empty string is falsy. *)
Definition truthy (s : string) : bool :=
  match s with
  | EmptyString => false
  | String _ _ => true
  end.

(** Truthiness of [string | undefined]. *)
Definition truthyOpt (o : option string) : bool :=
  match o with
  | Some s => truthy s
  | None => false
  end.

(** [String(v)] for [v : string | undefined], as done by string
    concatenation, template literals and [RegExp.prototype.test]. *)
Definition toString (o : option string) : string :=
  match o with
  | Some s => s
  | None => "undefined"
  end.

(** [s[0]]: the first character as a one-character string, or
    [undefined]. *)
Definition index0 (s : string) : option string :=
  match s with
  | EmptyString => None
  | String c _ => Some (String c EmptyString)
  end.

(** [s.split(sep)] for a separator that matches exactly one character
    (a one-character string, or a character class).  The result is never
    empty: [''.split(sep)] is [['']]. *)
Fixpoint split (sep : ascii -> bool) (s : string) : list string :=
  match s with
  | EmptyString => [EmptyString]
  | String c rest =>
      if sep c then EmptyString :: split sep rest
      else match split sep rest with
           | [] => [String c EmptyString]
           | h :: t => String c h :: t
           end
  end.

(** [s.includes(c)] for a one-character needle. *)
Fixpoint includesChar (c : ascii) (s : string) : bool :=
  match s with
  | EmptyString => false
  | String d rest => Ascii.eqb c d || includesChar c rest
  end.

(** [arr.includes(x)] on an array of strings. *)
Fixpoint includes (arr : list string) (x : string) : bool :=
  match arr with
  | [] => false
  | y :: rest => String.eqb y x || includes rest x
  end.

(** [s.startsWith(p)]. *)
Fixpoint startsWith (s p : string) {struct p} : bool :=
  match p with
  | EmptyString => true
  | String a p' =>
      match s with
      | EmptyString => false
      | String b s' => Ascii.eqb a b && startsWith s' p'
      end
  end.

(** [s.endsWith(suf)]. *)
Definition endsWith (s suf : string) : bool :=
  Nat.leb (String.length suf) (String.length s)
  && String.eqb (substring (String.length s - String.length suf)
                           (String.length suf) s) suf.

(** [s.slice(0, -n)] for [n > 0]. *)
Definition sliceDropEnd (s : string) (n : nat) : string :=
  substring 0 (String.length s - n) s.

(** [a !== b] on [string | undefined] against a string. *)
Definition strictNeq (a : option string) (b : string) : bool :=
  match a with
  | Some s => negb (String.eqb s b)
  | None => true
  end.

End Js.

(** ** Data model *)

(** [ResolveResult] of the resolver: [{ path?: string, error?: string }]. *)
Record ResolveResult : Type := mkResolveResult {
  path : option string;
  error : option string
}.

(** Opaque meta information attached to a resolved id by the host. *)
Definition Meta : Type := list (string * string).

(** A (partial) resolved-id record of the host. *)
Record ResolvedId : Type := mkResolvedId {
  id : string;
  external : option bool;
  moduleSideEffects : option bool;
  meta : option Meta
}.

(** What the hook, or [resolveLikeNode], hands back: [null], [false], a
    string, or a resolved-id record. *)
Inductive Outcome : Type :=
| ONull
| OFalse
| OStr (s : string)
| ORec (r : ResolvedId).

(** [preferBuiltins?: boolean | ((id: string) => boolean)]. *)
Inductive PreferBuiltins : Type :=
| PBBool (b : bool)
| PBFun (f : string -> bool).

(** An element of a [resolveOnly] array.  A [RegExp] is its [test]
    function (no sticky or global flag). *)
Inductive Pattern : Type :=
| PatString (s : string)
| PatRegExp (test : string -> bool).

(** [resolveOnly?: Array<string | RegExp> | ((id: string) => boolean)]. *)
Inductive ResolveOnly : Type :=
| ROPatterns (patterns : list Pattern)
| ROFun (f : string -> bool).

(** The options object.  Only the keys the plugin itself reads, plus the
    extension-alias table it forwards to the resolver. *)
Record Options : Type := mkOptions {
  o_extensions : JsOpt (list string);
  o_conditionNames : JsOpt (list string);
  o_mainFields : JsOpt (list string);
  o_exportsFields : JsOpt (list string);
  o_mainFiles : JsOpt (list string);
  o_extensionAlias : JsOpt (list (string * list string));
  o_builtinModules : JsOpt bool;
  o_rootDir : JsOpt string;
  o_preferBuiltins : JsOpt PreferBuiltins;
  o_resolveOnly : JsOpt ResolveOnly
}.

(** [oxcResolve()] called with no argument, or with [{}]. *)
Definition noOptions : Options :=
  mkOptions Absent Absent Absent Absent Absent Absent Absent Absent Absent Absent.

(** [{ ...d, ...u }]. *)
Definition spreadOptions (d u : Options) : Options :=
  {| o_extensions := Js.spread (o_extensions d) (o_extensions u);
     o_conditionNames := Js.spread (o_conditionNames d) (o_conditionNames u);
     o_mainFields := Js.spread (o_mainFields d) (o_mainFields u);
     o_exportsFields := Js.spread (o_exportsFields d) (o_exportsFields u);
     o_mainFiles := Js.spread (o_mainFiles d) (o_mainFiles u);
     o_extensionAlias := Js.spread (o_extensionAlias d) (o_extensionAlias u);
     o_builtinModules := Js.spread (o_builtinModules d) (o_builtinModules u);
     o_rootDir := Js.spread (o_rootDir d) (o_rootDir u);
     o_preferBuiltins := Js.spread (o_preferBuiltins d) (o_preferBuiltins u);
     o_resolveOnly := Js.spread (o_resolveOnly d) (o_resolveOnly u) |}.

(** [rollupOptions.input]. *)
Inductive RollupInput : Type :=
| InputArray (entries : list string)
| InputObject (entries : list (string * string))
| InputString (entry : string).

(** The part of the hook's [resolveOptions] the plugin reads or writes:
    [custom['node-resolve']] and [skipSelf]. *)
Record ResolveOptions : Type := mkResolveOptions {
  nrResolved : option ResolvedId;
  nrImportee : option string;
  nrIsRequire : bool;
  skipSelf : option bool
}.

(** One observable action of a request. *)
Inductive Event : Type :=
| EngineCall (directory specifier : string)
| Warn (message : string)
| WarnCode (message pluginCode : string)
| DebugLog (specifier : string) (importer : option string) (r : ResolveResult)
| HostResolve (source : string) (importer : option string) (o : ResolveOptions).

(** The collaborators of one build. *)
Record Env : Type := mkEnv {
  cwd : string;
  dirname : string -> string;
  pathResolve : string -> string -> string;
  nodeBuiltinModules : list string;
  engine : string -> string -> ResolveResult;
  input : RollupInput;
  hostResolve : string -> option string -> ResolveOptions -> option ResolvedId
}.

(** ** A log-writing monad *)

Definition M (A : Type) : Type := (A * list Event)%type.

Definition ret {A} (a : A) : M A := (a, []).

Definition bind {A B} (m : M A) (f : A -> M B) : M B :=
  let (a, l) := m in
  let (b, l') := f a in
  (b, l ++ l').

Definition tell (e : Event) : M unit := (tt, [e]).

Definition result {A} (m : M A) : A := fst m.
Definition events {A} (m : M A) : list Event := snd m.

Notation "x <- c ;; k" := (bind c (fun x => k))
  (at level 61, c at next level, right associativity).
Notation "c ;;; k" := (bind c (fun _ => k))
  (at level 61, right associativity).

(** The resolver calls of a log, in order. *)
Fixpoint engineCalls (l : list Event) : list (string * string) :=
  match l with
  | [] => []
  | EngineCall d s :: rest => (d, s) :: engineCalls rest
  | _ :: rest => engineCalls rest
  end.

(** Whether a log holds a warning with the given plugin code. *)
Fixpoint hasWarnCode (code : string) (l : list Event) : bool :=
  match l with
  | [] => false
  | WarnCode _ c :: rest => String.eqb c code || hasWarnCode code rest
  | _ :: rest => hasWarnCode code rest
  end.

(** ** Helpers shared by the two variants

    [allowPatterns], [normalizeInput] and the two regular expressions are
    the same text in both sources. *)

(** What [new RegExp(`^${normalized}$`).test(id)] computes for a string
    pattern: every regular-expression metacharacter of the pattern is
    escaped and the pattern is anchored at both ends, so it matches
    exactly the pattern's own text. *)
Definition patternTest (p : Pattern) (x : string) : bool :=
  match p with
  | PatString s => String.eqb s x
  | PatRegExp test => test x
  end.

(** [regexPatterns.some((pattern) => pattern.test(id))]. *)
Fixpoint some (regexPatterns : list Pattern) (x : string) : bool :=
  match regexPatterns with
  | [] => false
  | p :: rest => patternTest p x || some rest x
  end.

(** [function allowPatterns(patterns = [])]. *)
Definition allowPatterns (patterns : option (list Pattern)) : string -> bool :=
  let regexPatterns := match patterns with Some l => l | None => [] end in
  fun x => negb (Nat.ltb 0 (List.length regexPatterns)) || some regexPatterns x.

(** [function normalizeInput(input)]. *)
Definition normalizeInput (i : RollupInput) : list string :=
  match i with
  | InputArray l => l
  | InputObject l => List.map snd l
  | InputString s => [s]
  end.

(** [NODE_IMPORT_PREFIX = /^node:/], as used in
    [importee.replace(NODE_IMPORT_PREFIX, '')]. *)
Definition stripNodePrefix (s : string) : string :=
  if Js.startsWith s "node:" then substring 5 (String.length s - 5) s else s.

(** [/^\.{0,2}\//.test(s)]. *)
Definition looksRelativeOrAbsolute (s : string) : bool :=
  match s with
  | String "/" _ => true
  | String "." (String "/" _) => true
  | String "." (String "." (String "/" _)) => true
  | _ => false
  end.

(** [importee.split('?')]. *)
Definition splitQuery (s : string) : list string :=
  Js.split (fun c => Ascii.eqb c "?") s.

(** [importee.split(/[/\\]/)]. *)
Definition splitSegments (s : string) : list string :=
  Js.split (fun c => Ascii.eqb c "/" || Ascii.eqb c "\") s.

(** [typeof preferBuiltins === 'function' ? preferBuiltins(importee) :
    preferBuiltins], read as a condition. *)
Definition evalPreferBuiltins (p : option PreferBuiltins) (importee : string) : bool :=
  match p with
  | Some (PBFun f) => f importee
  | Some (PBBool b) => b
  | None => false
  end.

(** The value of a key that may hold [undefined]. *)
Definition valueOf {A} (o : JsOpt A) : option A :=
  match o with
  | Present a => Some a
  | _ => None
  end.

(** The text of the PREFER_BUILTINS advisory. *)
Definition preferBuiltinsMessage (importee : string) (resolvedPath : option string) : string :=
  "preferring built-in module '" +++ importee
  +++ "' over local alternative at '" +++ Js.toString resolvedPath
  +++ "', pass 'preferBuiltins: false' to disable this behavior or 'preferBuiltins: true' to disable this warning."
  +++ "or passing a function to 'preferBuiltins' to provide more fine-grained control over which built-in modules to prefer.".

(** [{ id }]. *)
Definition idOnly (i : string) : ResolvedId :=
  {| id := i; external := None; moduleSideEffects := None; meta := None |}.

(** [{ id, external: true, moduleSideEffects: false }]. *)
Definition externalId (i : string) : ResolvedId :=
  {| id := i; external := Some true; moduleSideEffects := Some false; meta := None |}.

(** Truthiness of [resolvedResolved.external]. *)
Definition isExternal (r : ResolvedId) : bool :=
  match external r with
  | Some b => b
  | None => false
  end.

(** The first segment, extended for a scoped package, or the absolute
    path of a relative specifier, with the relative flag: the block
    [const parts = ...; let id = parts.shift(); ...] of [resolveLikeNode],
    the same in both variants. *)
Definition classify (env : Env) (baseDir importee : string) : string * bool :=
  let parts := splitSegments importee in
  let id0 := List.hd "" parts in
  let parts := List.tl parts in
  if match Js.index0 id0 with Some c => String.eqb c "@" | None => false end
     && Nat.ltb 0 (List.length parts)
  then (id0 +++ "/" +++ List.hd "" parts, false)
  else if match Js.index0 id0 with Some c => String.eqb c "." | None => false end
  then (pathResolve env baseDir importee, true)
  else (id0, false).

(** The hook's two guards and the NUL check on the importer use
    [includes('\0')]. *)
Definition hasNul (s : string) : bool := Js.includesChar Ascii.zero s.

(** [ES6_BROWSER_EMPTY = '\0node-resolve:empty.js']. *)
Definition ES6_BROWSER_EMPTY : string := String Ascii.zero "node-resolve:empty.js".

(** [/\.(?:ts|[cm]ts|tsx)$/.test(importer)]. *)
Definition isTypeScriptFile (importer : string) : bool :=
  Js.endsWith importer ".ts" || Js.endsWith importer ".cts"
  || Js.endsWith importer ".mts" || Js.endsWith importer ".tsx".

(** ** The variant of [src/index.ts] *)

Module Src.

(** [defaultOptions]. *)
Definition defaultOptions : Options :=
  {| o_extensions := Present [".mjs"; ".cjs"; ".js"; ".json"; ".node"];
     o_conditionNames := Present ["default"; "module"; "import"; "require"];
     o_mainFields := Present ["browser"; "module"; "main"];
     o_exportsFields := Present ["exports"];
     o_mainFiles := Present ["index"];
     o_extensionAlias := Absent;
     o_builtinModules := Absent;
     o_rootDir := Absent;
     o_preferBuiltins := Absent;
     o_resolveOnly := Absent |}.

Section Plugin.

(** The argument of [oxcResolve] and the collaborators of the build. *)
Variable userOptions : Options.
Variable env : Env.

(** [options = { ...defaultOptions, ...options }]. *)
Definition options : Options := spreadOptions defaultOptions userOptions.

(** [const { extensions = [], builtinModules: useBuiltinModules } = options].
    [useBuiltinModules] has no default here: a missing key is [undefined],
    which the conjunction in [resolveLikeNode] reads as false. *)
Definition extensions : list string := Js.orDefault (o_extensions options) [].

Definition useBuiltinModules : bool :=
  match o_builtinModules options with
  | Present b => b
  | _ => false
  end.

Definition isPreferBuiltinsSet : bool := Js.hasOwn (o_preferBuiltins options).

Definition preferBuiltins : option PreferBuiltins :=
  if isPreferBuiltinsSet then valueOf (o_preferBuiltins options)
  else Some (PBBool true).

Definition resolveOnly : string -> bool :=
  match o_resolveOnly options with
  | Present (ROFun f) => f
  | Present (ROPatterns l) => allowPatterns (Some l)
  | _ => allowPatterns None
  end.

(** The [for] loop over the five extension pairs: one [push] per pair
    whose first component ends the specifier and whose second component
    is in [extensions]. *)
Definition tsExtensionPairs : list (string * string) :=
  [(".js", ".ts"); (".js", ".tsx"); (".jsx", ".tsx"); (".mjs", ".mts"); (".cjs", ".cts")].

Definition pushTsVariant (importee : string) (importSpecifierList : list string)
    (pair : string * string) : list string :=
  let (importeeExt, resolvedExt) := pair in
  if Js.endsWith importee importeeExt && Js.includes extensions resolvedExt
  then importSpecifierList
       ++ [Js.sliceDropEnd importee (String.length importeeExt) +++ resolvedExt]
  else importSpecifierList.

(** The candidate list: lines 96 to 121. *)
Definition importSpecifierList (importee : string) (importer : option string) : list string :=
  let l := [importee] in
  let l :=
    if match importer with None => true | Some _ => false end
       && negb (looksRelativeOrAbsolute (Js.toString (Js.index0 importee)))
    then l ++ ["./" +++ importee]
    else l in
  if Js.truthyOpt importer
     && isTypeScriptFile (Js.toString importer)
  then List.fold_left (pushTsVariant importee) tsExtensionPairs l
  else l.

Definition importeeIsBuiltin (importee : string) : bool :=
  useBuiltinModules
  && Js.includes (nodeBuiltinModules env) (stripNodePrefix importee).

Definition preferImporteeIsBuiltin (importee : string) : bool :=
  evalPreferBuiltins preferBuiltins importee.

(** The probing loop, lines 137 to 147.  [resolved] is the loop's
    variable; both branches of the test on [resolved.path] go on to the
    next candidate, as the body ends right after the [continue]. *)
Fixpoint probe (directory : string) (candidates : list string)
    (resolved : option ResolveResult) : M (option ResolveResult) :=
  match candidates with
  | [] => ret resolved
  | importSpecifer :: rest =>
      tell (EngineCall directory importSpecifer) ;;;
      let resolved := engine env directory importSpecifer in
      if negb (Js.truthyOpt (path resolved))
      then probe directory rest (Some resolved)
      else probe directory rest (Some resolved)
  end.

(** [importPath] and [importSuffix], lines 69 and 70. *)
Definition importPath (importee : string) : string :=
  List.hd "" (splitQuery importee).

Definition importSuffix (importee : string) : string :=
  match List.nth_error (splitQuery importee) 1 with
  | Some params => if Js.truthy params then "?" +++ params else ""
  | None => ""
  end.

(** [const baseDir = importer ? dirname(importer) : process.cwd()]. *)
Definition baseDir (importer : option string) : string :=
  if Js.truthyOpt importer then dirname env (Js.toString importer) else cwd env.

(** The condition of line 89, [!isRelativeImport && !resolveOnly(id)], on
    the specifier with its query removed. *)
Definition gateRejects (importee : string) (importer : option string) : bool :=
  let (pkg, isRelativeImport) := classify env (baseDir importer) importee in
  negb isRelativeImport && negb (resolveOnly pkg).

(** [resolveLikeNode(context, importee, importer, custom)].  [custom] is
    read for [isRequire] only, which selects between two names of the same
    array, so it does not appear. *)
Definition resolveLikeNode (rawImportee : string) (importer : option string) : M Outcome :=
  let importSuffix := importSuffix rawImportee in
  let importee := importPath rawImportee in
  if gateRejects importee importer then
    if Js.includes (normalizeInput (input env)) importee then ret ONull
    else ret OFalse
  else
    let importSpecifierList := importSpecifierList importee importer in
    let importeeIsBuiltin := importeeIsBuiltin importee in
    let preferImporteeIsBuiltin := preferImporteeIsBuiltin importee in
    if importeeIsBuiltin && preferImporteeIsBuiltin then ret ONull
    else
      resolved <- probe (match importer with Some i => i | None => cwd env end)
                        importSpecifierList None ;;
      match resolved with
      | Some r => if Js.truthyOpt (error r) then tell (Warn (Js.toString (error r)))
                  else ret tt
      | None => ret tt
      end ;;;
      match resolved with
      | None => ret ONull
      | Some resolved =>
          if importeeIsBuiltin && preferImporteeIsBuiltin then
            (if negb isPreferBuiltinsSet && Js.strictNeq (path resolved) importee
             then tell (WarnCode (preferBuiltinsMessage importee (path resolved))
                                 "PREFER_BUILTINS")
             else ret tt) ;;;
            ret OFalse
          else ret (ORec (idOnly (Js.toString (path resolved) +++ importSuffix)))
      end.

(** The options of the plugin's own call of [this.resolve]. *)
Definition reResolveOptions (resolveOptions : ResolveOptions) (resolved : ResolvedId)
    (importee : string) : ResolveOptions :=
  {| nrResolved := Some resolved;
     nrImportee := Some importee;
     nrIsRequire := nrIsRequire resolveOptions;
     skipSelf := Some false |}.

(** [resolveId.handler(importee, importer, resolveOptions)]. *)
Definition handler (importee : string) (importer : option string)
    (resolveOptions : ResolveOptions) : M Outcome :=
  if String.eqb importee ES6_BROWSER_EMPTY then ret (OStr importee)
  else if negb (Js.truthy importee) then ret ONull
  else if hasNul importee then ret ONull
  else
    match nrResolved resolveOptions with
    | Some alreadyResolved => ret (ORec alreadyResolved)
    | None =>
        let importer :=
          match importer with
          | Some i => if hasNul i then None else Some i
          | None => None
          end in
        resolved <- resolveLikeNode importee importer ;;
        match resolved with
        | ORec r =>
            tell (HostResolve (id r) importer (reResolveOptions resolveOptions r importee)) ;;;
            match hostResolve env (id r) importer
                    (reResolveOptions resolveOptions r importee) with
            | Some resolvedResolved =>
                if isExternal resolvedResolved then ret OFalse
                else if negb (String.eqb (id resolvedResolved) (id r))
                then ret (ORec resolvedResolved)
                else ret (ORec {| id := id r;
                                  external := external r;
                                  moduleSideEffects := moduleSideEffects r;
                                  meta := meta resolvedResolved |})
            | None => ret resolved
            end
        | _ => ret resolved
        end
    end.

End Plugin.

End Src.

(** ** The variant listed after the README *)

Module Pkg.

(** [defaultOptions]. *)
Definition defaultOptions : Options :=
  {| o_extensions := Present [".mjs"; ".cjs"; ".js"; ".json"; ".node"; ".wasm"];
     o_conditionNames := Present ["default"; "module"; "import"; "require"];
     o_mainFields := Present ["browser"; "module"; "main"];
     o_exportsFields := Present ["exports"];
     o_mainFiles := Present ["index"];
     o_extensionAlias :=
       Present [(".js", [".tsx"; ".mts"; ".ts"; ".cts"; ".jsx"; ".mjs"; ".js"; ".cjs"]);
                (".jsx", [".tsx"; ".jsx"]);
                (".mjs", [".mts"; ".mjs"]);
                (".cjs", [".cts"; ".cjs"])];
     o_builtinModules := Absent;
     o_rootDir := Absent;
     o_preferBuiltins := Absent;
     o_resolveOnly := Absent |}.

Section Plugin.

Variable userOptions : Options.
Variable env : Env.

(** [options = { ...defaultOptions, ...options }]. *)
Definition options : Options := spreadOptions defaultOptions userOptions.

(** [const { builtinModules: useBuiltinModules = true,
             rootDir = process.cwd() } = options]. *)
Definition useBuiltinModules : bool := Js.orDefault (o_builtinModules options) true.

Definition rootDir : string := Js.orDefault (o_rootDir options) (cwd env).

Definition isPreferBuiltinsSet : bool := Js.hasOwn (o_preferBuiltins options).

Definition preferBuiltins : option PreferBuiltins :=
  if isPreferBuiltinsSet then valueOf (o_preferBuiltins options)
  else Some (PBBool true).

Definition resolveOnly : string -> bool :=
  match o_resolveOnly options with
  | Present (ROFun f) => f
  | Present (ROPatterns l) => allowPatterns (Some l)
  | _ => allowPatterns None
  end.

(** The candidate list. *)
Definition importSpecifierList (importee : string) (importer : option string) : list string :=
  let l := [importee] in
  if match importer with None => true | Some _ => false end
     && Js.truthyOpt (Js.index0 importee)
     && negb (looksRelativeOrAbsolute (Js.toString (Js.index0 importee)))
  then l ++ ["./" +++ importee]
  else l.

Definition importeeIsBuiltin (importee : string) : bool :=
  useBuiltinModules
  && Js.includes (nodeBuiltinModules env) (stripNodePrefix importee).

Definition preferImporteeIsBuiltin (importee : string) : bool :=
  evalPreferBuiltins preferBuiltins importee.

(** The probing loop.  As in [Src.probe], nothing follows the [continue]
    in the loop's body. *)
Fixpoint probe (directory : string) (importer : option string) (candidates : list string)
    (resolved : option ResolveResult) : M (option ResolveResult) :=
  match candidates with
  | [] => ret resolved
  | importSpecifer :: rest =>
      tell (EngineCall directory importSpecifer) ;;;
      let resolved := engine env directory importSpecifer in
      tell (DebugLog importSpecifer importer resolved) ;;;
      if negb (Js.truthyOpt (path resolved))
      then probe directory importer rest (Some resolved)
      else probe directory importer rest (Some resolved)
  end.

Definition importPath (importee : string) : string :=
  List.hd "" (splitQuery importee).

Definition importSuffix (importee : string) : string :=
  match List.nth_error (splitQuery importee) 1 with
  | Some params => if Js.truthy params then "?" +++ params else ""
  | None => ""
  end.

(** [const baseDir = importer ? dirname(importer) : rootDir]. *)
Definition baseDir (importer : option string) : string :=
  if Js.truthyOpt importer then dirname env (Js.toString importer) else rootDir.

(** [!isRelativeImport && !resolveOnly(id)]. *)
Definition gateRejects (importee : string) (importer : option string) : bool :=
  let (pkg, isRelativeImport) := classify env (baseDir importer) importee in
  negb isRelativeImport && negb (resolveOnly pkg).

(** [resolveLikeNode(context, importee, importer)]. *)
Definition resolveLikeNode (rawImportee : string) (importer : option string) : M Outcome :=
  let importSuffix := importSuffix rawImportee in
  let importee := importPath rawImportee in
  let pkg := fst (classify env (baseDir importer) importee) in
  if gateRejects importee importer then
    if Js.includes (normalizeInput (input env)) importee then ret ONull
    else ret OFalse
  else
    let importSpecifierList := importSpecifierList importee importer in
    let importeeIsBuiltin := importeeIsBuiltin importee in
    let preferImporteeIsBuiltin := preferImporteeIsBuiltin importee in
    if importeeIsBuiltin && preferImporteeIsBuiltin then ret (ORec (externalId pkg))
    else
      resolved <- probe (match importer with
                         | None => baseDir importer
                         | Some i => dirname env i
                         end)
                        importer importSpecifierList None ;;
      match resolved with
      | None => ret ONull
      | Some resolved =>
          if Js.truthyOpt (error resolved)
             && Js.startsWith (Js.toString (error resolved)) "Builtin module"
          then ret (ORec (externalId pkg))
          else
            (if Js.truthyOpt (error resolved)
             then tell (Warn (Js.toString (error resolved)))
             else ret tt) ;;;
            if importeeIsBuiltin && preferImporteeIsBuiltin then
              (if negb isPreferBuiltinsSet && Js.strictNeq (path resolved) importee
               then tell (WarnCode (preferBuiltinsMessage importee (path resolved))
                                   "PREFER_BUILTINS")
               else ret tt) ;;;
              ret OFalse
            else ret (ORec (idOnly (Js.toString (path resolved) +++ importSuffix)))
      end.

Definition reResolveOptions (resolveOptions : ResolveOptions) (resolved : ResolvedId)
    (importee : string) : ResolveOptions :=
  {| nrResolved := Some resolved;
     nrImportee := Some importee;
     nrIsRequire := nrIsRequire resolveOptions;
     skipSelf := Some false |}.

(** [resolveId.handler(importee, importer, resolveOptions)]. *)
Definition handler (importee : string) (importer : option string)
    (resolveOptions : ResolveOptions) : M Outcome :=
  if String.eqb importee ES6_BROWSER_EMPTY then ret (OStr importee)
  else if negb (Js.truthy importee) then ret ONull
  else if hasNul importee then ret ONull
  else
    match nrResolved resolveOptions with
    | Some alreadyResolved => ret (ORec alreadyResolved)
    | None =>
        let importer :=
          match importer with
          | Some i => if hasNul i then None else Some i
          | None => None
          end in
        resolved <- resolveLikeNode importee importer ;;
        match resolved with
        | ORec r =>
            tell (HostResolve (id r) importer (reResolveOptions resolveOptions r importee)) ;;;
            match hostResolve env (id r) importer
                    (reResolveOptions resolveOptions r importee) with
            | Some resolvedResolved =>
                if isExternal resolvedResolved then ret OFalse
                else if negb (String.eqb (id resolvedResolved) (id r))
                then ret (ORec resolvedResolved)
                else ret (ORec {| id := id r;
                                  external := external r;
                                  moduleSideEffects := moduleSideEffects r;
                                  meta := meta resolvedResolved |})
            | None => ret resolved
            end
        | _ => ret resolved
        end
    end.

End Plugin.

End Pkg.

(** ** The specification's reading of three notions

    The query suffix, the TypeScript variants and the External outcome are
    worded in the specification otherwise than they are coded; these
    definitions follow the specification's words, for comparison with the
    code. *)

Module Spec.

(** The query suffix of a specifier: the text from its first [?] on. *)
Fixpoint querySuffix (s : string) : string :=
  match s with
  | EmptyString => EmptyString
  | String c rest => if Ascii.eqb c "?" then s else querySuffix rest
  end.

(** The TypeScript-family extensions. *)
Definition isTypeScriptExtension (ext : string) : bool :=
  Js.includes [".ts"; ".tsx"; ".mts"; ".cts"] ext.

(** The acceptable source extensions the alias table lists for an ending. *)
Fixpoint aliasesOf (table : list (string * list string)) (ending : string) : list string :=
  match table with
  | [] => []
  | (k, v) :: rest => if String.eqb k ending then v else aliasesOf rest ending
  end.

(** Rule 2 as worded: for the ending of the specifier, one variant per
    TypeScript counterpart the alias table lists, in the table's order. *)
Definition tsVariants (table : list (string * list string)) (importee : string) : list string :=
  List.flat_map
    (fun ending =>
       if Js.endsWith importee ending
       then List.map (fun ext => Js.sliceDropEnd importee (String.length ending) +++ ext)
                     (List.filter isTypeScriptExtension (aliasesOf table ending))
       else [])
    [".js"; ".jsx"; ".mjs"; ".cjs"].

(** An outcome that leaves the specifier external: a record flagged
    external, or [false], the host's own answer for an external module. *)
Definition marksExternal (o : Outcome) : bool :=
  match o with
  | ORec r => isExternal r
  | OFalse => true
  | _ => false
  end.

End Spec.

(** ** Vocabulary of the statements *)

(** The pairs of [Src.tsExtensionPairs] that apply to a specifier. *)
Definition applicablePair (userOptions : Options) (importee : string)
    (pair : string * string) : bool :=
  Js.endsWith importee (fst pair) && Js.includes (Src.extensions userOptions) (snd pair).

(** The specifier with the first extension of a pair replaced by the
    second. *)
Definition swappedExtension (importee : string) (pair : string * string) : string :=
  Js.sliceDropEnd importee (String.length (fst pair)) +++ snd pair.

(** An outcome with a suffix appended to the id of its record, if it has
    one. *)
Definition appendToId (suffix : string) (o : Outcome) : Outcome :=
  match o with
  | ORec r => ORec {| id := id r +++ suffix;
                      external := external r;
                      moduleSideEffects := moduleSideEffects r;
                      meta := meta r |}
  | _ => o
  end.

(** What [resolveLikeNode] of [src/index.ts] does with a request that is
    let through the gate: null at once for a preferred builtin; otherwise
    one resolver call per candidate, in order, and a record made from the
    answer for the last one. *)
Definition answeredPastGate (userOptions : Options) (env : Env)
    (rawImportee : string) (importer : option string) : Prop :=
  let importee := Src.importPath rawImportee in
  let candidates := Src.importSpecifierList userOptions importee importer in
  let directory := match importer with Some i => i | None => cwd env end in
  if Src.importeeIsBuiltin userOptions env importee
     && Src.preferImporteeIsBuiltin userOptions importee
  then Src.resolveLikeNode userOptions env rawImportee importer = (ONull, [])
  else engineCalls (events (Src.resolveLikeNode userOptions env rawImportee importer))
       = List.map (fun c => (directory, c)) candidates
       /\ result (Src.resolveLikeNode userOptions env rawImportee importer)
          = ORec (idOnly (Js.toString
                            (path (engine env directory (List.last candidates importee)))
                          +++ Src.importSuffix rawImportee)).

(** ** Claims of the specification that the code does not meet as worded

    Each is stated here as the specification words it, over the resolving
    function of a variant, to be refuted on a concrete request. *)

Module AsStated.

(** The query suffix of a specifier ends every resolved id. *)
Definition querySuffixPreserved
    (resolve : Options -> Env -> string -> option string -> M Outcome) : Prop :=
  forall userOptions env importee importer r,
    Js.includesChar "?" importee = true ->
    result (resolve userOptions env importee importer) = ORec r ->
    Js.endsWith (id r) (Spec.querySuffix importee) = true.

(** Under a TypeScript importer the candidates are the specifier followed
    by the variants the alias table gives. *)
Definition tsVariantsFollowAliasTable
    (candidatesOf : Options -> string -> option string -> list string) : Prop :=
  forall userOptions importee importer,
    isTypeScriptFile importer = true ->
    List.existsb (Js.endsWith importee) [".js"; ".jsx"; ".mjs"; ".cjs"] = true ->
    candidatesOf userOptions importee (Some importer)
    = importee :: Spec.tsVariants
                    (Js.orDefault (o_extensionAlias (spreadOptions Src.defaultOptions
                                                                   userOptions)) [])
                    importee.

(** A bare specifier whose package name fails [resolveOnly] is deferred
    when it is one of the build's entries and rejected otherwise. *)
Definition gatedEntryIsDeferred
    (resolveOnlyOf : Options -> string -> bool)
    (resolve : Options -> Env -> string -> option string -> M Outcome) : Prop :=
  forall userOptions env specifier importer entries,
    Js.index0 specifier <> Some "." ->
    resolveOnlyOf userOptions (fst (classify env (cwd env) specifier)) = false ->
    input env = InputArray entries ->
    (List.In specifier entries ->
     result (resolve userOptions env specifier importer) = ONull)
    /\ (~ List.In specifier entries ->
        result (resolve userOptions env specifier importer) = OFalse).

End AsStated.

(** ** A concrete build, for evaluation *)

Module Fixture.

(** A string read backwards onto an accumulator. *)
Fixpoint revOnto (s acc : string) : string :=
  match s with
  | EmptyString => acc
  | String c rest => revOnto rest (String c acc)
  end.

(** A string without its leading slashes, and without its leading
    characters other than a slash. *)
Fixpoint dropSlashes (s : string) : string :=
  match s with
  | EmptyString => EmptyString
  | String c rest => if Ascii.eqb c "/" then dropSlashes rest else s
  end.

Fixpoint dropName (s : string) : string :=
  match s with
  | EmptyString => EmptyString
  | String c rest => if Ascii.eqb c "/" then s else dropName rest
  end.

(** [path.dirname] of Node on POSIX.  Node scans the path from its end
    down to index 1: trailing slashes are passed over, then the last name,
    and the path is cut at the slash before that name; with no such slash
    the result is [/] for a rooted path and [.] otherwise, and a cut at
    index 1 of a rooted path gives [//]. *)
Definition posixDirname (s : string) : string :=
  match s with
  | EmptyString => "."
  | String c0 rest =>
      let hasRoot := Ascii.eqb c0 "/" in
      match dropName (dropSlashes (revOnto rest EmptyString)) with
      | EmptyString => if hasRoot then "/" else "."
      | String _ before =>
          if hasRoot && match before with EmptyString => true | _ => false end
          then "//"
          else String c0 (revOnto before EmptyString)
      end
  end.

(** The segments of a path that remain after normalization, last one
    first: empty segments and [.] are dropped, [..] removes the segment
    before it, and is dropped at the root. *)
Definition normalizeSegments (segments : list string) : list string :=
  List.fold_left
    (fun stack segment =>
       if String.eqb segment "" || String.eqb segment "." then stack
       else if String.eqb segment ".." then List.tl stack
       else segment :: stack)
    segments [].

Fixpoint joinSegments (segments : list string) : string :=
  match segments with
  | [] => EmptyString
  | segment :: rest => "/" +++ segment +++ joinSegments rest
  end.

(** [path.resolve(base, rel)] of Node on POSIX, in a process whose working
    directory is [workingDirectory]: the arguments are taken from the right
    until one is absolute, the working directory coming last, and the
    result is normalized. *)
Definition posixResolve (workingDirectory base rel : string) : string :=
  let full :=
    if Js.startsWith rel "/" then rel
    else if Js.startsWith base "/" then base +++ "/" +++ rel
    else workingDirectory +++ "/" +++ base +++ "/" +++ rel in
  match List.rev (normalizeSegments (Js.split (fun c => Ascii.eqb c "/") full)) with
  | [] => "/"
  | segments => joinSegments segments
  end.

(** [path.resolve] in the project below, whose working directory is
    [/proj]. *)
Definition joinPath (base rel : string) : string := posixResolve "/proj" base rel.

(** A project in which the bare name [foo] resolves to an installed
    package and [./foo] to a local file, and where a local package named
    [fs] shadows the builtin; everything else is not found.  The host's
    resolution chain answers a re-submitted id with the record it was
    resolved to, as this plugin does on re-entry. *)
Definition engineOf (directory specifier : string) : ResolveResult :=
  if String.eqb specifier "foo"
  then {| path := Some "/proj/node_modules/foo/index.js"; error := None |}
  else if String.eqb specifier "./foo"
  then {| path := Some "/proj/foo.js"; error := None |}
  else if String.eqb specifier "fs"
  then {| path := Some "/proj/node_modules/fs/index.js"; error := None |}
  else {| path := None; error := Some ("Cannot find module '" +++ specifier +++ "'") |}.

Definition build (entries : list string) : Env :=
  {| cwd := "/proj";
     dirname := posixDirname;
     pathResolve := joinPath;
     nodeBuiltinModules := ["fs"; "fs/promises"; "path"; "url"];
     engine := engineOf;
     input := InputArray entries;
     hostResolve := fun _ _ o => nrResolved o |}.

(** [oxcResolve({ builtinModules: true })]. *)
Definition withBuiltinModules : Options :=
  {| o_extensions := Absent; o_conditionNames := Absent; o_mainFields := Absent;
     o_exportsFields := Absent; o_mainFiles := Absent; o_extensionAlias := Absent;
     o_builtinModules := Present true; o_rootDir := Absent;
     o_preferBuiltins := Absent; o_resolveOnly := Absent |}.

(** [oxcResolve({ builtinModules: true, preferBuiltins: true })]. *)
Definition withPreferBuiltins : Options :=
  {| o_extensions := Absent; o_conditionNames := Absent; o_mainFields := Absent;
     o_exportsFields := Absent; o_mainFiles := Absent; o_extensionAlias := Absent;
     o_builtinModules := Present true; o_rootDir := Absent;
     o_preferBuiltins := Present (PBBool true); o_resolveOnly := Absent |}.

(** [oxcResolve({ resolveOnly: ['lodash'] })]. *)
Definition onlyLodash : Options :=
  {| o_extensions := Absent; o_conditionNames := Absent; o_mainFields := Absent;
     o_exportsFields := Absent; o_mainFiles := Absent; o_extensionAlias := Absent;
     o_builtinModules := Absent; o_rootDir := Absent;
     o_preferBuiltins := Absent; o_resolveOnly := Present (ROPatterns [PatString "lodash"]) |}.

(** [oxcResolve({ extensions: exts, extensionAlias: table })]. *)
Definition withExtensions (exts : list string) (table : JsOpt (list (string * list string)))
  : Options :=
  {| o_extensions := Present exts; o_conditionNames := Absent; o_mainFields := Absent;
     o_exportsFields := Absent; o_mainFiles := Absent; o_extensionAlias := table;
     o_builtinModules := Absent; o_rootDir := Absent;
     o_preferBuiltins := Absent; o_resolveOnly := Absent |}.

(** A request's options as the host first sends them. *)
Definition freshRequest : ResolveOptions :=
  {| nrResolved := None; nrImportee := None; nrIsRequire := false; skipSelf := None |}.

End Fixture.

(** ** The rest of the plugin: pattern escaping, condition names, the load hook *)

(** The characters of the class [[$()*+.?[\\\]^{|}]] that [allowPatterns]
    escapes: the syntax characters of a regular expression. *)
Definition isSyntaxCharacter (c : ascii) : bool :=
  Js.includesChar c "$()*+.?[\]^{|}".

(** [pattern.replaceAll(/[$()*+.?[\\\]^{|}]/g, String.raw`\$&`)]: a
    backslash is put before each syntax character. *)
Fixpoint escapePattern (pattern : string) : string :=
  match pattern with
  | EmptyString => EmptyString
  | String c rest =>
      if isSyntaxCharacter c then String "\" (String c (escapePattern rest))
      else String c (escapePattern rest)
  end.

(** The source text of [new RegExp(`^${normalized}$`)]. *)
Definition patternSource (pattern : string) : string :=
  "^" +++ escapePattern pattern +++ "$".

(** [SyntaxCharacter] of the ECMAScript grammar of patterns, written out
    from the grammar: caret, dollar, backslash, dot, star, plus, question
    mark, the two parentheses, brackets and braces, and the bar.  In a
    pattern any other character matches itself, and a backslash followed
    by a syntax character matches that character. *)
Definition ecmaSyntaxCharacter (c : ascii) : bool :=
  match c with
  | "^" | "$" | "\" | "." | "*" | "+" | "?"
  | "(" | ")" | "[" | "]" | "{" | "}" | "|" => true
  | _ => false
  end%char.

(** The text a pattern body matches in full when the body is made only of
    such escapes and of characters that are not syntax characters, up to a
    final [$].  A body with an unescaped syntax character, or with a
    backslash before any other character, is more than a literal and is
    not read. *)
Fixpoint literalOfBody (body : string) : option string :=
  match body with
  | EmptyString => None
  | String c rest =>
      if Ascii.eqb c "$"
      then match rest with EmptyString => Some EmptyString | _ => None end
      else if Ascii.eqb c "\"
      then match rest with
           | String d rest' =>
               if ecmaSyntaxCharacter d
               then option_map (String d) (literalOfBody rest')
               else None
           | EmptyString => None
           end
      else if ecmaSyntaxCharacter c then None
      else option_map (String c) (literalOfBody rest)
  end.

(** The literal that an anchored source [^...$] matches in full, when the
    source is of that simple shape; [test] on such an expression is
    equality with the literal. *)
Definition literalOfSource (source : string) : option string :=
  match source with
  | String "^" body => literalOfBody body
  | _ => None
  end.

(** [load(importee)], the same in both variants: [null] is [None]. *)
Definition load (importee : string) : option string :=
  if String.eqb importee ES6_BROWSER_EMPTY then Some "export default {};"
  else None.

(** The condition names.  The array is pushed onto in place, and without a
    [conditionNames] key of the user's it is the array of [defaultOptions]
    itself, which every such plugin instance shares: the functions below
    map the contents of an array before a statement to its contents
    after. *)
Module Conditions.

(** [process.env.NODE_ENV && process.env.NODE_ENV !== 'production'
    ? 'development' : 'production']. *)
Definition modeOf (nodeEnv : option string) : string :=
  if Js.truthyOpt nodeEnv && negb (String.eqb (Js.toString nodeEnv) "production")
  then "development"
  else "production".

(** [if (!conditionNames.includes('development')
        && !conditionNames.includes('production')) conditionNames.push(...)]. *)
Definition pushMode (nodeEnv : option string) (conditionNames : list string) : list string :=
  if negb (Js.includes conditionNames "development")
     && negb (Js.includes conditionNames "production")
  then conditionNames ++ [modeOf nodeEnv]
  else conditionNames.

(** [if (useBrowserOverrides && !conditionNames.includes('browser'))
      conditionNames.push('browser')]. *)
Definition pushBrowser (useBrowserOverrides : bool) (conditionNames : list string)
  : list string :=
  if useBrowserOverrides && negb (Js.includes conditionNames "browser")
  then conditionNames ++ ["browser"]
  else conditionNames.

(** [const useBrowserOverrides = mainFields.includes('browser')], with
    [mainFields = []] by default. *)
Definition useBrowserOverrides (defaults userOptions : Options) : bool :=
  Js.includes (Js.orDefault (o_mainFields (spreadOptions defaults userOptions)) []) "browser".

(** What one call of [oxcResolve] of [src/index.ts] does to the condition
    names: given the current contents of [defaultOptions.conditionNames],
    the contents of the instance's own [conditionNames] and of the shared
    array afterwards.  A user's array is pushed onto instead of the shared
    one; an explicit [undefined] gives a fresh empty array. *)
Definition srcSetup (userOptions : Options) (nodeEnv : option string)
    (shared : list string) : list string * list string :=
  match o_conditionNames userOptions with
  | Absent => (pushMode nodeEnv shared, pushMode nodeEnv shared)
  | Undefined => (pushMode nodeEnv [], shared)
  | Present own => (pushMode nodeEnv own, shared)
  end.

(** The same for the variant listed after the README, which also pushes
    [browser] at this point. *)
Definition pkgSetup (userOptions : Options) (nodeEnv : option string)
    (shared : list string) : list string * list string :=
  let browser := useBrowserOverrides Pkg.defaultOptions userOptions in
  match o_conditionNames userOptions with
  | Absent => (pushBrowser browser (pushMode nodeEnv shared),
               pushBrowser browser (pushMode nodeEnv shared))
  | Undefined => (pushBrowser browser (pushMode nodeEnv []), shared)
  | Present own => (pushBrowser browser (pushMode nodeEnv own), shared)
  end.

End Conditions.

(** ** More vocabulary of the statements *)

(** Whether some character of a string satisfies a test. *)
Fixpoint anyChar (f : ascii -> bool) (s : string) : bool :=
  match s with
  | EmptyString => false
  | String c rest => f c || anyChar f rest
  end.

(** The separators of [/[/\\]/]. *)
Definition isSeparator (c : ascii) : bool := Ascii.eqb c "/" || Ascii.eqb c "\".

(** A string read backwards. *)
Fixpoint reverse (s : string) : string :=
  match s with
  | EmptyString => EmptyString
  | String c rest => reverse rest +++ String c EmptyString
  end.

(** The messages of the plain warnings of a log, in order. *)
Fixpoint warnings (l : list Event) : list string :=
  match l with
  | [] => []
  | Warn m :: rest => m :: warnings rest
  | _ :: rest => warnings rest
  end.

(** The calls of the host's [this.resolve] of a log, in order. *)
Fixpoint hostCalls (l : list Event) : list (string * option string) :=
  match l with
  | [] => []
  | HostResolve source importer _ :: rest => (source, importer) :: hostCalls rest
  | _ :: rest => hostCalls rest
  end.

(** * Properties *)

(** ** The log *)

Lemma events_bind {A B} (m : M A) (f : A -> M B) :
  events (bind m f) = events m ++ events (f (result m)).
Proof.
  destruct m as [a l]. unfold bind, events, result. simpl.
  destruct (f a); reflexivity.
Qed.

Lemma result_bind {A B} (m : M A) (f : A -> M B) :
  result (bind m f) = result (f (result m)).
Proof.
  destruct m as [a l]. unfold bind, result. simpl.
  destruct (f a); reflexivity.
Qed.

Lemma engineCalls_app (l1 l2 : list Event) :
  engineCalls (l1 ++ l2) = engineCalls l1 ++ engineCalls l2.
Proof.
  induction l1 as [|e l1 IH]; simpl; [reflexivity|].
  destruct e; simpl; rewrite IH; reflexivity.
Qed.

Lemma hasWarnCode_app (code : string) (l1 l2 : list Event) :
  hasWarnCode code (l1 ++ l2) = hasWarnCode code l1 || hasWarnCode code l2.
Proof.
  induction l1 as [|e l1 IH]; simpl; [reflexivity|].
  destruct e; simpl; rewrite IH; try reflexivity.
  rewrite orb_assoc. reflexivity.
Qed.

(** ** The probing loop *)

(** The loop of [src/index.ts] calls the resolver on every candidate, in
    the order of the list, whatever the resolver answers. *)
Lemma Src_probe_events (env : Env) (directory : string) (candidates : list string)
    (resolved : option ResolveResult) :
  events (Src.probe env directory candidates resolved)
  = List.map (EngineCall directory) candidates.
Proof.
  revert resolved.
  induction candidates as [|c rest IH]; intros resolved; [reflexivity|].
  cbn [Src.probe List.map]. rewrite events_bind.
  change (events (tell (EngineCall directory c))) with [EngineCall directory c].
  destruct (negb (Js.truthyOpt (path (engine env directory c))));
    rewrite IH; reflexivity.
Qed.

(** Its variable ends up holding the answer for the last candidate. *)
Lemma Src_probe_result (env : Env) (directory : string) (candidates : list string)
    (resolved : option ResolveResult) :
  result (Src.probe env directory candidates resolved)
  = match List.rev candidates with
    | [] => resolved
    | lastCandidate :: _ => Some (engine env directory lastCandidate)
    end.
Proof.
  revert resolved.
  induction candidates as [|c rest IH]; intros resolved; [reflexivity|].
  cbn [Src.probe List.rev]. rewrite result_bind.
  assert (E : result (Src.probe env directory rest (Some (engine env directory c)))
              = match List.rev rest ++ [c] with
                | [] => resolved
                | lastCandidate :: _ => Some (engine env directory lastCandidate)
                end).
  { rewrite IH. destruct (List.rev rest); reflexivity. }
  destruct (negb (Js.truthyOpt (path (engine env directory c)))); exact E.
Qed.

(** The loop of the other variant does the same, with a debug line after
    each call. *)
Lemma Pkg_probe_engineCalls (env : Env) (directory : string) (importer : option string)
    (candidates : list string) (resolved : option ResolveResult) :
  engineCalls (events (Pkg.probe env directory importer candidates resolved))
  = List.map (fun c => (directory, c)) candidates.
Proof.
  revert resolved.
  induction candidates as [|c rest IH]; intros resolved; [reflexivity|].
  cbn [Pkg.probe List.map]. rewrite !events_bind, !engineCalls_app.
  change (events (tell (EngineCall directory c))) with [EngineCall directory c].
  change (events (tell (DebugLog c importer (engine env directory c))))
    with [DebugLog c importer (engine env directory c)].
  destruct (negb (Js.truthyOpt (path (engine env directory c))));
    rewrite IH; reflexivity.
Qed.

Lemma Pkg_probe_result (env : Env) (directory : string) (importer : option string)
    (candidates : list string) (resolved : option ResolveResult) :
  result (Pkg.probe env directory importer candidates resolved)
  = match List.rev candidates with
    | [] => resolved
    | lastCandidate :: _ => Some (engine env directory lastCandidate)
    end.
Proof.
  revert resolved.
  induction candidates as [|c rest IH]; intros resolved; [reflexivity|].
  cbn [Pkg.probe List.rev]. rewrite !result_bind.
  assert (E : result (Pkg.probe env directory importer rest
                                (Some (engine env directory c)))
              = match List.rev rest ++ [c] with
                | [] => resolved
                | lastCandidate :: _ => Some (engine env directory lastCandidate)
                end).
  { rewrite IH. destruct (List.rev rest); reflexivity. }
  destruct (negb (Js.truthyOpt (path (engine env directory c)))); exact E.
Qed.

(** C1, at a build entry [foo] for which both the installed package and the
    local file exist.  The first candidate [foo] resolves, yet the loop goes
    on to [./foo] and the id returned is the one of the later candidate, in
    both variants. *)
Theorem C1_later_candidate_overrides_first_success :
  Src.importSpecifierList noOptions "foo" None = ["foo"; "./foo"]
  /\ path (Fixture.engineOf "/proj" "foo") = Some "/proj/node_modules/foo/index.js"
  /\ Src.resolveLikeNode noOptions (Fixture.build ["foo"]) "foo" None
     = (ORec (idOnly "/proj/foo.js"),
        [EngineCall "/proj" "foo"; EngineCall "/proj" "./foo"])
  /\ engineCalls (events (Pkg.resolveLikeNode noOptions (Fixture.build ["foo"]) "foo" None))
     = [("/proj", "foo"); ("/proj", "./foo")]
  /\ result (Pkg.resolveLikeNode noOptions (Fixture.build ["foo"]) "foo" None)
     = ORec (idOnly "/proj/foo.js").
Proof. repeat split; vm_compute; reflexivity. Qed.

(** ** The candidate list *)

(** The loop over the pairs appends, in the order of the pairs, the
    variant of each applicable pair. *)
Lemma pushTsVariant_fold (userOptions : Options) (importee : string)
    (pairs : list (string * string)) (l : list string) :
  List.fold_left (Src.pushTsVariant userOptions importee) pairs l
  = l ++ List.map (swappedExtension importee)
                  (List.filter (applicablePair userOptions importee) pairs).
Proof.
  revert l.
  induction pairs as [|[importeeExt resolvedExt] pairs IH]; intros l; simpl.
  - rewrite app_nil_r. reflexivity.
  - rewrite IH. unfold applicablePair, Src.pushTsVariant. simpl.
    destruct (Js.endsWith importee importeeExt
              && Js.includes (Src.extensions userOptions) resolvedExt); simpl.
    + rewrite <- app_assoc. reflexivity.
    + reflexivity.
Qed.

(** The candidate list starts with the specifier itself. *)
Lemma Src_importSpecifierList_head (userOptions : Options) (importee : string)
    (importer : option string) :
  exists rest, Src.importSpecifierList userOptions importee importer = importee :: rest.
Proof.
  unfold Src.importSpecifierList.
  destruct (Js.truthyOpt importer && isTypeScriptFile (Js.toString importer)).
  - rewrite pushTsVariant_fold.
    destruct (match importer with None => true | Some _ => false end
              && negb (looksRelativeOrAbsolute (Js.toString (Js.index0 importee))));
      simpl; eexists; reflexivity.
  - destruct (match importer with None => true | Some _ => false end
              && negb (looksRelativeOrAbsolute (Js.toString (Js.index0 importee))));
      simpl; eexists; reflexivity.
Qed.

Lemma Pkg_importSpecifierList_head (importee : string) (importer : option string) :
  exists rest, Pkg.importSpecifierList importee importer = importee :: rest.
Proof.
  unfold Pkg.importSpecifierList.
  destruct (match importer with None => true | Some _ => false end
            && Js.truthyOpt (Js.index0 importee)
            && negb (looksRelativeOrAbsolute (Js.toString (Js.index0 importee))));
    simpl; eexists; reflexivity.
Qed.

(** The last element of a non-empty list heads its reversal. *)
Lemma rev_nonempty_last {A} (x : A) (l : list A) :
  exists tl, List.rev (x :: l) = List.last (x :: l) x :: tl.
Proof.
  exists (List.rev (List.removelast (x :: l))).
  rewrite <- rev_unit. f_equal.
  apply app_removelast_last. discriminate.
Qed.

(** ** Requests that reach the loop *)

(** In [src/index.ts], a request that passes the gate and the builtin
    pre-check calls the resolver on every candidate, in order, and returns
    a resolved-id record made from the answer for the last candidate,
    whether that answer holds a path or not. *)
Lemma Src_resolveLikeNode_probed (userOptions : Options) (env : Env)
    (rawImportee : string) (importer : option string) :
  let importee := Src.importPath rawImportee in
  let candidates := Src.importSpecifierList userOptions importee importer in
  let directory := match importer with Some i => i | None => cwd env end in
  Src.gateRejects userOptions env importee importer = false ->
  Src.importeeIsBuiltin userOptions env importee
  && Src.preferImporteeIsBuiltin userOptions importee = false ->
  engineCalls (events (Src.resolveLikeNode userOptions env rawImportee importer))
  = List.map (fun c => (directory, c)) candidates
  /\ result (Src.resolveLikeNode userOptions env rawImportee importer)
     = ORec (idOnly (Js.toString (path (engine env directory (List.last candidates importee)))
                     +++ Src.importSuffix rawImportee)).
Proof.
  intros importee candidates directory Hgate Hpre.
  unfold Src.resolveLikeNode.
  fold importee. rewrite Hgate. fold candidates. rewrite Hpre. fold directory.
  rewrite events_bind, result_bind, events_bind, result_bind.
  rewrite Src_probe_events, Src_probe_result.
  destruct (Src_importSpecifierList_head userOptions importee importer) as [rest Hrest].
  fold candidates in Hrest.
  destruct (rev_nonempty_last importee rest) as [tl Htl].
  rewrite Hrest. rewrite Htl.
  rewrite !engineCalls_app.
  split.
  - set (r := engine env directory (List.last (importee :: rest) importee)).
    assert (E1 : engineCalls (List.map (EngineCall directory) (importee :: rest))
                 = List.map (fun c => (directory, c)) (importee :: rest)).
    { clear. induction (importee :: rest) as [|c l IH]; simpl; [reflexivity|].
      rewrite IH. reflexivity. }
    rewrite E1.
    destruct (Js.truthyOpt (error r)); simpl; rewrite app_nil_r; reflexivity.
  - reflexivity.
Qed.

(** The same for the other variant, which first turns a diagnostic that
    starts with [Builtin module] into an External record. *)
Lemma Pkg_resolveLikeNode_probed (userOptions : Options) (env : Env)
    (rawImportee : string) (importer : option string) :
  let importee := Pkg.importPath rawImportee in
  let candidates := Pkg.importSpecifierList importee importer in
  let directory := match importer with
                   | None => Pkg.baseDir userOptions env importer
                   | Some i => dirname env i
                   end in
  let answer := engine env directory (List.last candidates importee) in
  Pkg.gateRejects userOptions env importee importer = false ->
  Pkg.importeeIsBuiltin userOptions env importee
  && Pkg.preferImporteeIsBuiltin userOptions importee = false ->
  engineCalls (events (Pkg.resolveLikeNode userOptions env rawImportee importer))
  = List.map (fun c => (directory, c)) candidates
  /\ result (Pkg.resolveLikeNode userOptions env rawImportee importer)
     = if Js.truthyOpt (error answer)
          && Js.startsWith (Js.toString (error answer)) "Builtin module"
       then ORec (externalId
                    (fst (classify env (Pkg.baseDir userOptions env importer) importee)))
       else ORec (idOnly (Js.toString (path answer) +++ Pkg.importSuffix rawImportee)).
Proof.
  intros importee candidates directory answer Hgate Hpre.
  unfold Pkg.resolveLikeNode.
  fold importee. rewrite Hgate. fold candidates. rewrite Hpre. fold directory.
  rewrite events_bind, result_bind.
  rewrite Pkg_probe_result.
  destruct (Pkg_importSpecifierList_head importee importer) as [rest Hrest].
  fold candidates in Hrest.
  destruct (rev_nonempty_last importee rest) as [tl Htl].
  unfold answer. rewrite Hrest. rewrite Htl. rewrite <- Hrest.
  rewrite engineCalls_app, Pkg_probe_engineCalls.
  set (r := engine env directory (List.last candidates importee)).
  destruct (Js.startsWith (Js.toString (error r)) "Builtin module");
    destruct (Js.truthyOpt (error r)); simpl; rewrite app_nil_r; split; reflexivity.
Qed.

(** C2, at an import of [./missing] from [/proj/src/a.js].  The only
    candidate is probed and yields no path; the loop's variable holds the
    resolver's answer, which is not null, so the test [!resolved] fails and
    a resolved-id record is returned whose id is the text of [undefined],
    in both variants, by [resolveLikeNode] and by the hook. *)
Theorem C2_exhausted_list_returns_record :
  path (Fixture.engineOf "/proj/src" "./missing") = None
  /\ Src.resolveLikeNode noOptions (Fixture.build ["src/index.js"])
       "./missing" (Some "/proj/src/a.js")
     = (ORec (idOnly "undefined"),
        [EngineCall "/proj/src/a.js" "./missing";
         Warn "Cannot find module './missing'"])
  /\ engineCalls (events (Pkg.resolveLikeNode noOptions (Fixture.build ["src/index.js"])
                            "./missing" (Some "/proj/src/a.js")))
     = [("/proj/src", "./missing")]
  /\ result (Pkg.resolveLikeNode noOptions (Fixture.build ["src/index.js"])
               "./missing" (Some "/proj/src/a.js"))
     = ORec (idOnly "undefined")
  /\ result (Src.handler noOptions (Fixture.build ["src/index.js"])
               "./missing" (Some "/proj/src/a.js") Fixture.freshRequest)
     = ORec (idOnly "undefined")
  /\ result (Pkg.handler noOptions (Fixture.build ["src/index.js"])
               "./missing" (Some "/proj/src/a.js") Fixture.freshRequest)
     = ORec (idOnly "undefined").
Proof. repeat split; vm_compute; reflexivity. Qed.

(** No request that reaches the loop is answered with null: the outcome
    is always a record. *)
Lemma Src_probed_never_null (userOptions : Options) (env : Env)
    (rawImportee : string) (importer : option string) :
  Src.gateRejects userOptions env (Src.importPath rawImportee) importer = false ->
  Src.importeeIsBuiltin userOptions env (Src.importPath rawImportee)
  && Src.preferImporteeIsBuiltin userOptions (Src.importPath rawImportee) = false ->
  result (Src.resolveLikeNode userOptions env rawImportee importer) <> ONull.
Proof.
  intros Hgate Hpre.
  destruct (Src_resolveLikeNode_probed userOptions env rawImportee importer Hgate Hpre)
    as [_ Hres].
  rewrite Hres. discriminate.
Qed.

Lemma Pkg_probed_never_null (userOptions : Options) (env : Env)
    (rawImportee : string) (importer : option string) :
  Pkg.gateRejects userOptions env (Pkg.importPath rawImportee) importer = false ->
  Pkg.importeeIsBuiltin userOptions env (Pkg.importPath rawImportee)
  && Pkg.preferImporteeIsBuiltin userOptions (Pkg.importPath rawImportee) = false ->
  result (Pkg.resolveLikeNode userOptions env rawImportee importer) <> ONull.
Proof.
  intros Hgate Hpre.
  destruct (Pkg_resolveLikeNode_probed userOptions env rawImportee importer Hgate Hpre)
    as [_ Hres].
  rewrite Hres.
  match goal with |- (if ?b then _ else _) <> _ => destruct b end; discriminate.
Qed.

(** ** The builtin pre-check *)

(** For a specifier (query removed) that is a builtin whose preference
    evaluates to true, neither variant ever calls the resolver; past the
    gate, [src/index.ts] answers null and the other variant with the
    External record of [id], with nothing logged in either. *)
Lemma preferred_builtin_precheck (userOptions : Options) (env : Env)
    (rawImportee : string) (importer : option string) :
  (Src.importeeIsBuiltin userOptions env (Src.importPath rawImportee) = true ->
   Src.preferImporteeIsBuiltin userOptions (Src.importPath rawImportee) = true ->
   engineCalls (events (Src.resolveLikeNode userOptions env rawImportee importer)) = []
   /\ (Src.gateRejects userOptions env (Src.importPath rawImportee) importer = false ->
       Src.resolveLikeNode userOptions env rawImportee importer = (ONull, [])))
  /\ (Pkg.importeeIsBuiltin userOptions env (Pkg.importPath rawImportee) = true ->
      Pkg.preferImporteeIsBuiltin userOptions (Pkg.importPath rawImportee) = true ->
      engineCalls (events (Pkg.resolveLikeNode userOptions env rawImportee importer)) = []
      /\ (Pkg.gateRejects userOptions env (Pkg.importPath rawImportee) importer = false ->
          Pkg.resolveLikeNode userOptions env rawImportee importer
          = (ORec (externalId
                     (fst (classify env (Pkg.baseDir userOptions env importer)
                                    (Pkg.importPath rawImportee)))),
             []))).
Proof.
  split.
  - intros Hb Hp. unfold Src.resolveLikeNode.
    rewrite Hb, Hp.
    destruct (Src.gateRejects userOptions env (Src.importPath rawImportee) importer).
    + split; [|discriminate].
      destruct (Js.includes (normalizeInput (input env)) (Src.importPath rawImportee));
        reflexivity.
    + split; [reflexivity|]. intros _. reflexivity.
  - intros Hb Hp. unfold Pkg.resolveLikeNode.
    rewrite Hb, Hp.
    destruct (Pkg.gateRejects userOptions env (Pkg.importPath rawImportee) importer).
    + split; [|discriminate].
      destruct (Js.includes (normalizeInput (input env)) (Pkg.importPath rawImportee));
        reflexivity.
    + split; [reflexivity|]. intros _. reflexivity.
Qed.

(** C3, at an import of [fs] from [/proj/src/a.js] under
    [{ builtinModules: true }].  The specifier is a recognized builtin, its
    preference evaluates to true and the request passes the gate.  The
    resolver is not called, as the claim has it; but [src/index.ts] answers
    null, by [resolveLikeNode] and by the hook, where the claim has an
    External outcome, which the other variant gives.  For the builtin
    [fs/promises] the External record of that variant names [fs], the first
    segment, not the specifier. *)
Theorem C3_src_precheck_answers_null :
  Src.importeeIsBuiltin Fixture.withBuiltinModules (Fixture.build ["src/index.js"]) "fs"
  && Src.preferImporteeIsBuiltin Fixture.withBuiltinModules "fs" = true
  /\ Src.gateRejects Fixture.withBuiltinModules (Fixture.build ["src/index.js"]) "fs"
       (Some "/proj/src/a.js") = false
  /\ Src.resolveLikeNode Fixture.withBuiltinModules (Fixture.build ["src/index.js"]) "fs"
       (Some "/proj/src/a.js")
     = (ONull, [])
  /\ Src.handler Fixture.withBuiltinModules (Fixture.build ["src/index.js"]) "fs"
       (Some "/proj/src/a.js") Fixture.freshRequest
     = (ONull, [])
  /\ Spec.marksExternal ONull = false
  /\ Pkg.resolveLikeNode Fixture.withBuiltinModules (Fixture.build ["src/index.js"]) "fs"
       (Some "/proj/src/a.js")
     = (ORec (externalId "fs"), [])
  /\ Pkg.resolveLikeNode Fixture.withBuiltinModules (Fixture.build ["src/index.js"])
       "fs/promises" (Some "/proj/src/a.js")
     = (ORec (externalId "fs"), []).
Proof. repeat split; vm_compute; reflexivity. Qed.

(** ** The PREFER_BUILTINS advisory *)

(** Resolver calls and debug lines are not warnings. *)
Lemma hasWarnCode_engine_calls (code directory : string) (candidates : list string) :
  hasWarnCode code (List.map (EngineCall directory) candidates) = false.
Proof. induction candidates as [|c l IH]; simpl; [reflexivity | exact IH]. Qed.

Lemma Pkg_probe_no_warning (code : string) (env : Env) (directory : string)
    (importer : option string) (candidates : list string)
    (resolved : option ResolveResult) :
  hasWarnCode code (events (Pkg.probe env directory importer candidates resolved)) = false.
Proof.
  revert resolved.
  induction candidates as [|c rest IH]; intros resolved; [reflexivity|].
  cbn [Pkg.probe]. rewrite !events_bind, !hasWarnCode_app.
  change (events (tell (EngineCall directory c))) with [EngineCall directory c].
  change (events (tell (DebugLog c importer (engine env directory c))))
    with [DebugLog c importer (engine env directory c)].
  destruct (negb (Js.truthyOpt (path (engine env directory c))));
    rewrite IH; reflexivity.
Qed.

(** The branch of [src/index.ts] that emits the advisory is guarded by the
    very condition on which the pre-check has already returned: no request
    ever logs it. *)
Lemma Src_advisory_unreachable (userOptions : Options) (env : Env)
    (rawImportee : string) (importer : option string) :
  hasWarnCode "PREFER_BUILTINS"
    (events (Src.resolveLikeNode userOptions env rawImportee importer)) = false.
Proof.
  unfold Src.resolveLikeNode.
  destruct (Src.gateRejects userOptions env (Src.importPath rawImportee) importer).
  - destruct (Js.includes (normalizeInput (input env)) (Src.importPath rawImportee));
      reflexivity.
  - destruct (Src.importeeIsBuiltin userOptions env (Src.importPath rawImportee)
              && Src.preferImporteeIsBuiltin userOptions (Src.importPath rawImportee));
      [reflexivity|].
    rewrite !events_bind, !hasWarnCode_app.
    rewrite Src_probe_events, hasWarnCode_engine_calls.
    destruct (result (Src.probe env _ _ None)) as [r|]; simpl.
    + destruct (Js.truthyOpt (error r)); reflexivity.
    + reflexivity.
Qed.

(** The same holds of the other variant. *)
Lemma Pkg_advisory_unreachable (userOptions : Options) (env : Env)
    (rawImportee : string) (importer : option string) :
  hasWarnCode "PREFER_BUILTINS"
    (events (Pkg.resolveLikeNode userOptions env rawImportee importer)) = false.
Proof.
  unfold Pkg.resolveLikeNode.
  destruct (Pkg.gateRejects userOptions env (Pkg.importPath rawImportee) importer).
  - destruct (Js.includes (normalizeInput (input env)) (Pkg.importPath rawImportee));
      reflexivity.
  - destruct (Pkg.importeeIsBuiltin userOptions env (Pkg.importPath rawImportee)
              && Pkg.preferImporteeIsBuiltin userOptions (Pkg.importPath rawImportee));
      [reflexivity|].
    rewrite !events_bind, !hasWarnCode_app.
    rewrite Pkg_probe_no_warning.
    destruct (result (Pkg.probe env _ _ _ None)) as [r|]; [|reflexivity].
    destruct (Js.startsWith (Js.toString (error r)) "Builtin module");
      destruct (Js.truthyOpt (error r)); reflexivity.
Qed.

(** Read on the runs of the code, the condition of the advisory, a
    preferred builtin for which the resolver has been called, never holds,
    and the advisory is never logged: the two are equivalent, in both
    variants. *)
Lemma advisory_iff_condition (userOptions : Options) (env : Env)
    (rawImportee : string) (importer : option string) :
  (hasWarnCode "PREFER_BUILTINS"
     (events (Src.resolveLikeNode userOptions env rawImportee importer)) = true
   <-> Src.importeeIsBuiltin userOptions env (Src.importPath rawImportee)
       && Src.preferImporteeIsBuiltin userOptions (Src.importPath rawImportee) = true
       /\ engineCalls (events (Src.resolveLikeNode userOptions env rawImportee importer))
          <> []
       /\ Src.isPreferBuiltinsSet userOptions = false)
  /\ (hasWarnCode "PREFER_BUILTINS"
        (events (Pkg.resolveLikeNode userOptions env rawImportee importer)) = true
      <-> Pkg.importeeIsBuiltin userOptions env (Pkg.importPath rawImportee)
          && Pkg.preferImporteeIsBuiltin userOptions (Pkg.importPath rawImportee) = true
          /\ engineCalls (events (Pkg.resolveLikeNode userOptions env rawImportee importer))
             <> []
          /\ Pkg.isPreferBuiltinsSet userOptions = false).
Proof.
  destruct (preferred_builtin_precheck userOptions env rawImportee importer) as [Hs Hp].
  split; split.
  - rewrite Src_advisory_unreachable. discriminate.
  - intros [Hb [Hcalls _]]. apply andb_true_iff in Hb. destruct Hb as [Hb Hpref].
    contradiction Hcalls. exact (proj1 (Hs Hb Hpref)).
  - rewrite Pkg_advisory_unreachable. discriminate.
  - intros [Hb [Hcalls _]]. apply andb_true_iff in Hb. destruct Hb as [Hb Hpref].
    contradiction Hcalls. exact (proj1 (Hp Hb Hpref)).
Qed.

(** C4, at an import of [fs] from [/proj/src/a.js] under
    [{ builtinModules: true, preferBuiltins: true }].  No advisory is
    logged, as the claim has it, but [src/index.ts] does not keep the
    External outcome: it answers null, by [resolveLikeNode] and by the
    hook.  The other variant answers with the External record. *)
Theorem C4_explicit_preference_answers_null :
  Src.isPreferBuiltinsSet Fixture.withPreferBuiltins = true
  /\ Src.importeeIsBuiltin Fixture.withPreferBuiltins (Fixture.build ["src/index.js"]) "fs"
     && Src.preferImporteeIsBuiltin Fixture.withPreferBuiltins "fs" = true
  /\ Src.gateRejects Fixture.withPreferBuiltins (Fixture.build ["src/index.js"]) "fs"
       (Some "/proj/src/a.js") = false
  /\ Src.resolveLikeNode Fixture.withPreferBuiltins (Fixture.build ["src/index.js"])
       "fs" (Some "/proj/src/a.js")
     = (ONull, [])
  /\ Src.handler Fixture.withPreferBuiltins (Fixture.build ["src/index.js"])
       "fs" (Some "/proj/src/a.js") Fixture.freshRequest
     = (ONull, [])
  /\ Spec.marksExternal ONull = false
  /\ Pkg.resolveLikeNode Fixture.withPreferBuiltins (Fixture.build ["src/index.js"])
       "fs" (Some "/proj/src/a.js")
     = (ORec (externalId "fs"), []).
Proof. repeat split; vm_compute; reflexivity. Qed.

(** ** The default configuration *)

(** With no restriction configured the gate lets every specifier pass. *)
Lemma allowPatterns_none (x : string) : allowPatterns None x = true.
Proof. reflexivity. Qed.

Lemma allowPatterns_empty (x : string) : allowPatterns (Some []) x = true.
Proof. reflexivity. Qed.

(** The variant listed after the README defaults [builtinModules] to
    true: under the default options every builtin is answered with the
    External record, with no call of the resolver. *)
Lemma Pkg_default_builtin_is_external (env : Env) (rawImportee : string)
    (importer : option string) :
  Js.includes (nodeBuiltinModules env) (stripNodePrefix (Pkg.importPath rawImportee)) = true ->
  Pkg.resolveLikeNode noOptions env rawImportee importer
  = (ORec (externalId (fst (classify env (Pkg.baseDir noOptions env importer)
                                     (Pkg.importPath rawImportee)))),
     []).
Proof.
  intros Hb.
  unfold Pkg.resolveLikeNode, Pkg.gateRejects.
  destruct (classify env (Pkg.baseDir noOptions env importer) (Pkg.importPath rawImportee))
    as [pkg isRelativeImport].
  change (Pkg.resolveOnly noOptions pkg) with true.
  rewrite andb_false_r.
  unfold Pkg.importeeIsBuiltin. rewrite Hb. reflexivity.
Qed.

(** [src/index.ts] has no default for [builtinModules]: under the default
    options no specifier counts as a builtin. *)
Lemma Src_default_recognizes_no_builtin (env : Env) (importee : string) :
  Src.importeeIsBuiltin noOptions env importee = false.
Proof. reflexivity. Qed.

(** C5, at an import of [fs] from [/proj/src/a.js] under the default
    options, in a project where a local package named [fs] exists.  In
    [src/index.ts] builtin recognition is off, the resolver is called and
    the local file is the outcome; the other variant answers with the
    External record. *)
Theorem C5_default_options_resolve_builtin_locally :
  Src.useBuiltinModules noOptions = false
  /\ Src.resolveLikeNode noOptions (Fixture.build ["src/index.js"])
       "fs" (Some "/proj/src/a.js")
     = (ORec (idOnly "/proj/node_modules/fs/index.js"),
        [EngineCall "/proj/src/a.js" "fs"])
  /\ Pkg.useBuiltinModules noOptions = true
  /\ Pkg.resolveLikeNode noOptions (Fixture.build ["src/index.js"])
       "fs" (Some "/proj/src/a.js")
     = (ORec (externalId "fs"), []).
Proof. repeat split; vm_compute; reflexivity. Qed.

(** ** The query suffix *)

(** Appending the empty suffix changes nothing. *)
Lemma append_empty_r (s : string) : s +++ "" = s.
Proof. induction s as [|c s IH]; simpl; [reflexivity | rewrite IH; reflexivity]. Qed.

(** Splitting a string that holds no separator gives the string itself. *)
Lemma splitQuery_no_query (s : string) :
  Js.includesChar "?" s = false -> splitQuery s = [s].
Proof.
  unfold splitQuery.
  induction s as [|c s IH]; cbn [Js.includesChar Js.split]; intros H; [reflexivity|].
  apply orb_false_elim in H. destruct H as [Hc Hs].
  rewrite Ascii.eqb_sym, Hc. rewrite (IH Hs). reflexivity.
Qed.

(** Splitting at the first [?]. *)
Lemma splitQuery_at_first (p q : string) :
  Js.includesChar "?" p = false ->
  splitQuery (p +++ String "?" q) = p :: splitQuery q.
Proof.
  unfold splitQuery.
  induction p as [|c p IH]; intros H.
  - reflexivity.
  - cbn [Js.includesChar] in H.
    apply orb_false_elim in H. destruct H as [Hc Hp].
    change (String c p +++ String "?" q) with (String c (p +++ String "?" q)).
    cbn [Js.split].
    rewrite Ascii.eqb_sym, Hc. rewrite (IH Hp). reflexivity.
Qed.

(** The first piece of a split holds no [?]. *)
Lemma importPath_no_query (s : string) :
  Js.includesChar "?" (List.hd "" (splitQuery s)) = false.
Proof.
  unfold splitQuery.
  induction s as [|c s IH]; cbn [Js.split]; [reflexivity|].
  destruct (Ascii.eqb c "?") eqn:E; [reflexivity|].
  destruct (Js.split (fun c0 => Ascii.eqb c0 "?") s) as [|h t];
    cbn [List.hd Js.includesChar] in *.
  - rewrite Ascii.eqb_sym, E. reflexivity.
  - rewrite Ascii.eqb_sym, E. exact IH.
Qed.

(** A specifier is the text before its first [?] followed by its query
    suffix. *)
Lemma importPath_querySuffix (s : string) :
  s = List.hd "" (splitQuery s) +++ Spec.querySuffix s.
Proof.
  unfold splitQuery.
  induction s as [|c s IH]; [reflexivity|].
  cbn [Js.split Spec.querySuffix].
  destruct (Ascii.eqb c "?"); [reflexivity|].
  destruct (Js.split (fun c0 => Ascii.eqb c0 "?") s) as [|h t];
    cbn [List.hd String.append] in *; rewrite <- IH; reflexivity.
Qed.

(** Removing the query twice is removing it once, and leaves no suffix. *)
Lemma Src_importPath_idempotent (s : string) :
  Src.importPath (Src.importPath s) = Src.importPath s.
Proof.
  unfold Src.importPath.
  rewrite (splitQuery_no_query _ (importPath_no_query s)). reflexivity.
Qed.

Lemma Src_importSuffix_of_importPath (s : string) :
  Src.importSuffix (Src.importPath s) = "".
Proof.
  unfold Src.importSuffix, Src.importPath.
  rewrite (splitQuery_no_query _ (importPath_no_query s)). reflexivity.
Qed.

(** Every request is answered as the request for the text before the
    first [?] is, with [importSuffix] appended to the id of a record. *)
Lemma Src_resolveLikeNode_query (userOptions : Options) (env : Env)
    (rawImportee : string) (importer : option string) :
  Src.resolveLikeNode userOptions env rawImportee importer
  = (appendToId (Src.importSuffix rawImportee)
       (result (Src.resolveLikeNode userOptions env (Src.importPath rawImportee) importer)),
     events (Src.resolveLikeNode userOptions env (Src.importPath rawImportee) importer)).
Proof.
  unfold Src.resolveLikeNode.
  rewrite Src_importPath_idempotent, Src_importSuffix_of_importPath.
  destruct (Src.gateRejects userOptions env (Src.importPath rawImportee) importer).
  - destruct (Js.includes (normalizeInput (input env)) (Src.importPath rawImportee));
      reflexivity.
  - destruct (Src.importeeIsBuiltin userOptions env (Src.importPath rawImportee)
              && Src.preferImporteeIsBuiltin userOptions (Src.importPath rawImportee));
      [reflexivity|].
    destruct (Src.probe env _ _ None) as [[r|] l]; unfold bind, result, events; simpl.
    + destruct (Js.truthyOpt (error r)); simpl; rewrite append_empty_r; reflexivity.
    + reflexivity.
Qed.

(** C6 as worded fails on two kinds of specifier, here imported from
    [/proj/src/a.js]: with an empty query the [?] itself is dropped, and
    with a second [?] everything from the second [?] on is dropped. *)
Lemma C6_counterexample :
  ~ AsStated.querySuffixPreserved Src.resolveLikeNode
  /\ result (Src.resolveLikeNode noOptions (Fixture.build ["src/index.js"])
               "./foo?" (Some "/proj/src/a.js"))
     = ORec (idOnly "/proj/foo.js")
  /\ result (Src.resolveLikeNode noOptions (Fixture.build ["src/index.js"])
               "./foo?a=1?b=2" (Some "/proj/src/a.js"))
     = ORec (idOnly "/proj/foo.js?a=1").
Proof.
  split; [|split; vm_compute; reflexivity].
  intros H.
  specialize (H noOptions (Fixture.build ["src/index.js"]) "./foo?a=1?b=2"
                (Some "/proj/src/a.js") (idOnly "/proj/foo.js?a=1") eq_refl eq_refl).
  vm_compute in H. discriminate.
Qed.

(** C6, amended.  For every specifier, the log (resolver calls, warnings)
    is that of the request for the text before the first [?], which holds
    no [?] and is followed in the specifier by the query suffix.  For
    every specifier [p?q] with a single [?] and a non-empty
    query [q], the outcome is that of the request for [p], with [?q]
    appended to the id of a resolved-id record. *)
Theorem C6_single_query_suffix_preserved (userOptions : Options) (env : Env)
    (rawImportee : string) (importer : option string) :
  (events (Src.resolveLikeNode userOptions env rawImportee importer)
   = events (Src.resolveLikeNode userOptions env (Src.importPath rawImportee) importer)
   /\ Js.includesChar "?" (Src.importPath rawImportee) = false
   /\ rawImportee = Src.importPath rawImportee +++ Spec.querySuffix rawImportee)
  /\ forall p q : string,
       rawImportee = p +++ "?" +++ q ->
       Js.includesChar "?" p = false ->
       Js.includesChar "?" q = false ->
       q <> "" ->
       Src.importPath rawImportee = p
       /\ Src.importSuffix rawImportee = "?" +++ q
       /\ Src.resolveLikeNode userOptions env rawImportee importer
          = (appendToId ("?" +++ q)
               (result (Src.resolveLikeNode userOptions env p importer)),
             events (Src.resolveLikeNode userOptions env p importer)).
Proof.
  split.
  - split; [|split].
    + rewrite Src_resolveLikeNode_query. reflexivity.
    + apply importPath_no_query.
    + apply importPath_querySuffix.
  - intros p q Hraw Hp Hq Hne.
    assert (Hsplit : splitQuery rawImportee = [p; q]).
    { rewrite Hraw.
      change (p +++ "?" +++ q) with (p +++ String "?" q).
      rewrite (splitQuery_at_first p q Hp), (splitQuery_no_query q Hq). reflexivity. }
    assert (Hpath : Src.importPath rawImportee = p).
    { unfold Src.importPath. rewrite Hsplit. reflexivity. }
    assert (Hsuffix : Src.importSuffix rawImportee = "?" +++ q).
    { unfold Src.importSuffix. rewrite Hsplit. simpl.
      destruct q as [|c q]; [contradiction Hne; reflexivity | reflexivity]. }
    split; [exact Hpath|]. split; [exact Hsuffix|].
    rewrite Src_resolveLikeNode_query, Hpath, Hsuffix. reflexivity.
Qed.

(** The amended C6 at an import of [./foo?url] from [/proj/src/a.js]:
    the only resolver call is for [./foo], and [?url] ends the id. *)
Lemma C6_single_query_suffix_witness :
  Src.resolveLikeNode noOptions (Fixture.build ["src/index.js"]) "./foo?url"
    (Some "/proj/src/a.js")
  = (ORec (idOnly "/proj/foo.js?url"), [EngineCall "/proj/src/a.js" "./foo"]).
Proof.
  refine (proj2 (proj2 (proj2 (C6_single_query_suffix_preserved noOptions
                                 (Fixture.build ["src/index.js"]) "./foo?url"
                                 (Some "/proj/src/a.js"))
                              "./foo" "url" eq_refl eq_refl eq_refl _))).
  discriminate.
Defined.

(** ** The resolve-only gate *)

(** The first character of the first segment is the first character of
    the specifier, unless the specifier starts with a separator. *)
Lemma splitSegments_head (c : ascii) (rest : string) :
  (Ascii.eqb c "/" || Ascii.eqb c "\")%char = false ->
  Js.index0 (List.hd "" (splitSegments (String c rest))) = Some (String c "").
Proof.
  intros H. unfold splitSegments. cbn [Js.split]. rewrite H.
  destruct (Js.split _ rest); reflexivity.
Qed.

Lemma splitSegments_head_separator (c : ascii) (rest : string) :
  (Ascii.eqb c "/" || Ascii.eqb c "\")%char = true ->
  List.hd "" (splitSegments (String c rest)) = "".
Proof.
  intros H. unfold splitSegments. cbn [Js.split]. rewrite H. reflexivity.
Qed.

(** A specifier is classified as relative exactly when its first
    character is a dot. *)
Lemma classify_relative_iff (env : Env) (baseDir importee : string) :
  snd (classify env baseDir importee) = true <-> Js.index0 importee = Some ".".
Proof.
  unfold classify.
  destruct importee as [|c rest].
  - simpl. split; discriminate.
  - destruct (Ascii.eqb c "/" || Ascii.eqb c "\")%char eqn:Hsep.
    + rewrite (splitSegments_head_separator c rest Hsep). simpl.
      split; [discriminate|].
      intros H. injection H as H. subst c. discriminate Hsep.
    + rewrite (splitSegments_head c rest Hsep).
      destruct (Ascii.eqb_spec c ".") as [Hdot|Hdot].
      * subst c. simpl. split; reflexivity.
      * assert (E : String.eqb (String c "") "." = false).
        { apply String.eqb_neq. intros H. injection H as H. contradiction. }
        rewrite E.
        destruct (String.eqb (String c "") "@"
                  && Nat.ltb 0 (List.length (List.tl (splitSegments (String c rest)))));
          simpl; (split; [discriminate|]);
          intros H; injection H as H; contradiction.
Qed.

Lemma includes_iff_In (l : list string) (x : string) :
  Js.includes l x = true <-> List.In x l.
Proof.
  induction l as [|y l IH]; simpl.
  - split; [discriminate | intros []].
  - rewrite orb_true_iff, IH, String.eqb_eq. reflexivity.
Qed.

(** A request whose gate condition is false is answered past the gate. *)
Lemma Src_answered_past_gate (userOptions : Options) (env : Env)
    (rawImportee : string) (importer : option string) :
  Src.gateRejects userOptions env (Src.importPath rawImportee) importer = false ->
  answeredPastGate userOptions env rawImportee importer.
Proof.
  intros Hgate. unfold answeredPastGate.
  destruct (Src.importeeIsBuiltin userOptions env (Src.importPath rawImportee)
            && Src.preferImporteeIsBuiltin userOptions (Src.importPath rawImportee))
    eqn:Hpre.
  - unfold Src.resolveLikeNode. rewrite Hgate, Hpre. reflexivity.
  - exact (Src_resolveLikeNode_probed userOptions env rawImportee importer Hgate Hpre).
Qed.

(** C7 as worded fails on a specifier with a query: the build's entries
    are compared with the specifier after its query is removed.  Under
    [resolveOnly: ['lodash']] the declared entry [react?x] is rejected with
    false, and [react?x], which is no entry, is deferred with null when
    [react] is one. *)
Lemma C7_counterexample :
  ~ AsStated.gatedEntryIsDeferred Src.resolveOnly Src.resolveLikeNode
  /\ Src.resolveLikeNode Fixture.onlyLodash (Fixture.build ["react?x"]) "react?x" None
     = (OFalse, [])
  /\ Src.resolveLikeNode Fixture.onlyLodash (Fixture.build ["react"]) "react?x" None
     = (ONull, []).
Proof.
  split; [|split; vm_compute; reflexivity].
  intros H.
  assert (Hbare : Js.index0 "react?x" <> Some ".") by discriminate.
  destruct (H Fixture.onlyLodash (Fixture.build ["react?x"]) "react?x" None ["react?x"]
              Hbare eq_refl eq_refl) as [Hin _].
  specialize (Hin (or_introl eq_refl)). vm_compute in Hin. discriminate.
Qed.

(** C7, amended.  With the specifier taken with its query removed: (1) a
    relative specifier, one whose first character is a dot, is let through
    the gate whatever [resolveOnly] holds: it is answered by the builtin
    pre-check or by probing every candidate; (2) a specifier that is not
    relative and whose package name fails [resolveOnly] is answered, with
    no resolver call, warning or other action, by null when it is one of
    the build's inputs (the entries of an array, the values of an object,
    or the single string) and by false otherwise; (3) when [resolveOnly] is
    missing, or undefined, or an empty list, every specifier is let
    through the gate in the same way. *)
Theorem C7_resolve_only_gate (userOptions : Options) (env : Env)
    (rawImportee : string) (importer : option string) :
  let importee := Src.importPath rawImportee in
  let entries := match input env with
                 | InputArray l => l
                 | InputObject l => List.map snd l
                 | InputString entry => [entry]
                 end in
  (Js.index0 importee = Some "." ->
   answeredPastGate userOptions env rawImportee importer)
  /\ (Js.index0 importee <> Some "." ->
      Src.resolveOnly userOptions
        (fst (classify env (Src.baseDir env importer) importee)) = false ->
      (List.In importee entries ->
       Src.resolveLikeNode userOptions env rawImportee importer = (ONull, []))
      /\ (~ List.In importee entries ->
          Src.resolveLikeNode userOptions env rawImportee importer = (OFalse, [])))
  /\ (o_resolveOnly userOptions = Absent
      \/ o_resolveOnly userOptions = Undefined
      \/ o_resolveOnly userOptions = Present (ROPatterns []) ->
      answeredPastGate userOptions env rawImportee importer).
Proof.
  intros importee entries. split; [|split].
  - intros Hrel. apply Src_answered_past_gate. fold importee. unfold Src.gateRejects.
    apply (classify_relative_iff env (Src.baseDir env importer)) in Hrel.
    destruct (classify env (Src.baseDir env importer) importee) as [pkg rel].
    simpl in Hrel. rewrite Hrel. reflexivity.
  - intros Hbare Hfail.
    assert (Hrel : snd (classify env (Src.baseDir env importer) importee) = false).
    { destruct (snd (classify env (Src.baseDir env importer) importee)) eqn:E;
        [|reflexivity].
      apply classify_relative_iff in E. contradiction. }
    assert (Hentries : normalizeInput (input env) = entries).
    { unfold entries. destruct (input env); reflexivity. }
    unfold Src.resolveLikeNode, Src.gateRejects. fold importee.
    destruct (classify env (Src.baseDir env importer) importee) as [pkg rel].
    simpl in Hrel, Hfail. rewrite Hrel, Hfail, Hentries. simpl.
    split; intros Hin.
    + apply includes_iff_In in Hin. rewrite Hin. reflexivity.
    + destruct (Js.includes entries importee) eqn:E; [|reflexivity].
      apply includes_iff_In in E. contradiction.
  - intros Hnone. apply Src_answered_past_gate. fold importee. unfold Src.gateRejects.
    destruct (classify env (Src.baseDir env importer) importee) as [pkg rel].
    assert (E : Src.resolveOnly userOptions pkg = true).
    { unfold Src.resolveOnly, Src.options. simpl.
      destruct Hnone as [H|[H|H]]; rewrite H; reflexivity. }
    rewrite E. apply andb_false_r.
Qed.

(** The amended C7 at four requests.  Under [resolveOnly: ['lodash']]: the
    relative import [./foo] is probed and resolved; the entry [react],
    asked for as [react?x], is deferred; the import [react] is rejected.
    Under the default options the import [foo] is probed and resolved. *)
Lemma C7_resolve_only_gate_witness :
  (engineCalls (events (Src.resolveLikeNode Fixture.onlyLodash (Fixture.build ["react"])
                          "./foo" (Some "/proj/src/a.js")))
   = [("/proj/src/a.js", "./foo")]
   /\ result (Src.resolveLikeNode Fixture.onlyLodash (Fixture.build ["react"])
                "./foo" (Some "/proj/src/a.js"))
      = ORec (idOnly "/proj/foo.js"))
  /\ Src.resolveLikeNode Fixture.onlyLodash (Fixture.build ["react"]) "react?x" None
     = (ONull, [])
  /\ Src.resolveLikeNode Fixture.onlyLodash (Fixture.build ["src/index.js"]) "react"
       (Some "/proj/src/a.js")
     = (OFalse, [])
  /\ result (Src.resolveLikeNode noOptions (Fixture.build ["src/index.js"]) "foo"
               (Some "/proj/src/a.js"))
     = ORec (idOnly "/proj/node_modules/foo/index.js").
Proof.
  split; [|split; [|split]].
  - exact (proj1 (C7_resolve_only_gate Fixture.onlyLodash (Fixture.build ["react"])
                    "./foo" (Some "/proj/src/a.js")) eq_refl).
  - refine (proj1 (proj1 (proj2 (C7_resolve_only_gate Fixture.onlyLodash
                                   (Fixture.build ["react"]) "react?x" None))
                         _ eq_refl) (or_introl eq_refl)).
    discriminate.
  - refine (proj2 (proj1 (proj2 (C7_resolve_only_gate Fixture.onlyLodash
                                   (Fixture.build ["src/index.js"])
                                   "react" (Some "/proj/src/a.js")))
                         _ eq_refl) _).
    + discriminate.
    + intros [H|[]]. discriminate H.
  - exact (proj2 (proj2 (proj2 (C7_resolve_only_gate noOptions
                                  (Fixture.build ["src/index.js"])
                                  "foo" (Some "/proj/src/a.js")))
                        (or_introl eq_refl))).
Defined.

(** The gate of the variant listed after the README is the same text and
    behaves the same. *)
Lemma Pkg_resolve_only_gate (userOptions : Options) (env : Env)
    (rawImportee : string) (importer : option string) :
  let importee := Pkg.importPath rawImportee in
  (Js.index0 importee = Some "." ->
   Pkg.gateRejects userOptions env importee importer = false)
  /\ (Js.index0 importee <> Some "." ->
      Pkg.resolveOnly userOptions
        (fst (classify env (Pkg.baseDir userOptions env importer) importee)) = false ->
      Pkg.resolveLikeNode userOptions env rawImportee importer
      = (if Js.includes (normalizeInput (input env)) importee then ONull else OFalse,
         []))
  /\ (o_resolveOnly userOptions = Absent
      \/ o_resolveOnly userOptions = Undefined
      \/ o_resolveOnly userOptions = Present (ROPatterns []) ->
      Pkg.gateRejects userOptions env importee importer = false).
Proof.
  intros importee. split; [|split].
  - intros Hrel. unfold Pkg.gateRejects.
    apply (classify_relative_iff env (Pkg.baseDir userOptions env importer)) in Hrel.
    destruct (classify env (Pkg.baseDir userOptions env importer) importee) as [pkg rel].
    simpl in Hrel. rewrite Hrel. reflexivity.
  - intros Hbare Hfail.
    assert (Hrel : snd (classify env (Pkg.baseDir userOptions env importer) importee)
                   = false).
    { destruct (snd (classify env (Pkg.baseDir userOptions env importer) importee)) eqn:E;
        [|reflexivity].
      apply classify_relative_iff in E. contradiction. }
    unfold Pkg.resolveLikeNode, Pkg.gateRejects. fold importee.
    destruct (classify env (Pkg.baseDir userOptions env importer) importee) as [pkg rel].
    simpl in Hrel, Hfail. rewrite Hrel, Hfail. simpl.
    destruct (Js.includes (normalizeInput (input env)) importee); reflexivity.
  - intros Hnone. unfold Pkg.gateRejects.
    destruct (classify env (Pkg.baseDir userOptions env importer) importee) as [pkg rel].
    assert (E : Pkg.resolveOnly userOptions pkg = true).
    { unfold Pkg.resolveOnly, Pkg.options. simpl.
      destruct Hnone as [H|[H|H]]; rewrite H; reflexivity. }
    rewrite E. apply andb_false_r.
Qed.

(** The package name under which a bare specifier is tested: its first
    segment, or its first two for a scoped package. *)
Example classify_package_names :
  classify (Fixture.build []) "/proj/src" "lodash/fp" = ("lodash", false)
  /\ classify (Fixture.build []) "/proj/src" "@scope/name/sub" = ("@scope/name", false)
  /\ classify (Fixture.build []) "/proj/src" "node:fs/promises" = ("node:fs", false)
  /\ classify (Fixture.build []) "/proj/src" "/abs/file.js" = ("", false)
  /\ classify (Fixture.build []) "/proj/src" "./local" = ("/proj/src/local", true).
Proof. repeat split; vm_compute; reflexivity. Qed.

(** ** TypeScript variants *)

(** C8 as worded fails: the code consults the [extensions] list, not the
    extension-alias table, and appends in the order of its own table of
    pairs.  For [./b.js] imported from [/proj/src/a.ts]: with [.ts] and
    [.tsx] in [extensions] and no alias table, two variants are appended;
    with both tables listing [.tsx] before [.ts], [./b.ts] still comes
    first; with [.ts] in the alias table only, nothing is appended. *)
Lemma C8_counterexample :
  ~ AsStated.tsVariantsFollowAliasTable Src.importSpecifierList
  /\ Src.importSpecifierList (Fixture.withExtensions [".ts"; ".tsx"] Absent)
       "./b.js" (Some "/proj/src/a.ts")
     = ["./b.js"; "./b.ts"; "./b.tsx"]
  /\ Spec.tsVariants [] "./b.js" = []
  /\ Src.importSpecifierList
       (Fixture.withExtensions [".tsx"; ".ts"] (Present [(".js", [".tsx"; ".ts"])]))
       "./b.js" (Some "/proj/src/a.ts")
     = ["./b.js"; "./b.ts"; "./b.tsx"]
  /\ Spec.tsVariants [(".js", [".tsx"; ".ts"])] "./b.js" = ["./b.tsx"; "./b.ts"]
  /\ Src.importSpecifierList
       (Fixture.withExtensions [".js"] (Present [(".js", [".ts"])]))
       "./b.js" (Some "/proj/src/a.ts")
     = ["./b.js"]
  /\ Spec.tsVariants [(".js", [".ts"])] "./b.js" = ["./b.ts"].
Proof.
  split; [|repeat split; vm_compute; reflexivity].
  intros H.
  specialize (H (Fixture.withExtensions [".ts"; ".tsx"] Absent) "./b.js" "/proj/src/a.ts"
                eq_refl eq_refl).
  vm_compute in H. discriminate.
Qed.

(** A TypeScript importer is not the empty string. *)
Lemma isTypeScriptFile_truthy (importer : string) :
  isTypeScriptFile importer = true -> Js.truthy importer = true.
Proof. destruct importer; [discriminate | reflexivity]. Qed.

(** C8, amended.  For a request whose importer has a TypeScript-family
    extension, the candidates are the specifier followed by one variant
    for each pair of the table [.js/.ts], [.js/.tsx], [.jsx/.tsx],
    [.mjs/.mts], [.cjs/.cts], in this order, whose first extension ends the
    specifier and whose second extension is in the [extensions] list of the
    configuration, the variant being the specifier with the first replaced
    by the second; so every variant comes from a pair whose counterpart
    [extensions] lists. *)
Theorem C8_ts_variants_follow_extensions (userOptions : Options)
    (importee importer : string) :
  isTypeScriptFile importer = true ->
  Src.importSpecifierList userOptions importee (Some importer)
  = importee :: List.map (swappedExtension importee)
                         (List.filter (applicablePair userOptions importee)
                                      Src.tsExtensionPairs)
  /\ forall variant,
       List.In variant (List.tl (Src.importSpecifierList userOptions importee (Some importer))) ->
       exists importeeExt resolvedExt,
         List.In (importeeExt, resolvedExt) Src.tsExtensionPairs
         /\ Js.endsWith importee importeeExt = true
         /\ Js.includes (Src.extensions userOptions) resolvedExt = true
         /\ variant = Js.sliceDropEnd importee (String.length importeeExt) +++ resolvedExt.
Proof.
  intros Hts.
  assert (E : Src.importSpecifierList userOptions importee (Some importer)
              = importee :: List.map (swappedExtension importee)
                              (List.filter (applicablePair userOptions importee)
                                           Src.tsExtensionPairs)).
  { unfold Src.importSpecifierList.
    cbn [Js.truthyOpt Js.toString andb].
    rewrite (isTypeScriptFile_truthy importer Hts), Hts.
    cbn [andb]. rewrite pushTsVariant_fold. reflexivity. }
  split; [exact E|].
  rewrite E. cbn [List.tl]. intros variant Hin.
  apply in_map_iff in Hin. destruct Hin as [[importeeExt resolvedExt] [Hv Hin]].
  apply filter_In in Hin. destruct Hin as [Hin Happ].
  unfold applicablePair in Happ. cbn [fst snd] in Happ.
  apply andb_true_iff in Happ. destruct Happ as [Hends Hincl].
  exists importeeExt, resolvedExt.
  repeat split; try assumption.
  symmetry. exact Hv.
Qed.

(** The amended C8 for [./b.js] imported from [/proj/src/a.ts] with
    [extensions: ['.js', '.tsx', '.ts']]. *)
Lemma C8_ts_variants_witness :
  Src.importSpecifierList (Fixture.withExtensions [".js"; ".tsx"; ".ts"] Absent)
    "./b.js" (Some "/proj/src/a.ts")
  = ["./b.js"; "./b.ts"; "./b.tsx"].
Proof.
  exact (proj1 (C8_ts_variants_follow_extensions
                  (Fixture.withExtensions [".js"; ".tsx"; ".ts"] Absent)
                  "./b.js" "/proj/src/a.ts" eq_refl)).
Defined.

(** ** The root fallback *)

(** The test of the root heuristic is applied to the first character
    alone, so it holds only of a specifier that starts with a slash. *)
Lemma looksRelativeOrAbsolute_first_char (s : string) :
  looksRelativeOrAbsolute (Js.toString (Js.index0 s)) = Js.startsWith s "/".
Proof.
  destruct s as [|c rest]; [reflexivity|].
  destruct c as [[] [] [] [] [] [] [] []]; reflexivity.
Qed.

(** At a graph root the [./] form is added unless the specifier starts
    with a slash. *)
Lemma Src_root_candidates (userOptions : Options) (importee : string) :
  Src.importSpecifierList userOptions importee None
  = if Js.startsWith importee "/" then [importee] else [importee; "./" +++ importee].
Proof.
  unfold Src.importSpecifierList.
  rewrite looksRelativeOrAbsolute_first_char.
  destruct (Js.startsWith importee "/"); reflexivity.
Qed.

(** In the other variant the empty specifier is left alone as well. *)
Lemma Pkg_root_candidates (importee : string) :
  Pkg.importSpecifierList importee None
  = if Js.truthy importee && negb (Js.startsWith importee "/")
    then [importee; "./" +++ importee] else [importee].
Proof.
  unfold Pkg.importSpecifierList.
  rewrite looksRelativeOrAbsolute_first_char.
  destruct importee as [|c rest]; [reflexivity|].
  cbn [Js.index0 Js.truthyOpt Js.truthy andb].
  destruct (Js.startsWith (String c rest) "/"); reflexivity.
Qed.

(** With an importer the [./] form is never added by the root rule. *)
Lemma Pkg_imported_candidates (importee importer : string) :
  Pkg.importSpecifierList importee (Some importer) = [importee].
Proof. reflexivity. Qed.

(** C9, at the build entries [./foo] and [../foo].  Both already look
    relative, yet each receives the [./] form as a second candidate, in
    both variants.  The other cases are as the claim has them: [/abs/foo]
    receives none, [foo/bar] receives [./foo/bar], and an imported
    [foo/bar] receives none. *)
Theorem C9_relative_root_gets_fallback :
  Src.importSpecifierList noOptions "./foo" None = ["./foo"; "././foo"]
  /\ Src.importSpecifierList noOptions "../foo" None = ["../foo"; "./../foo"]
  /\ Pkg.importSpecifierList "./foo" None = ["./foo"; "././foo"]
  /\ Pkg.importSpecifierList "../foo" None = ["../foo"; "./../foo"]
  /\ Src.importSpecifierList noOptions "/abs/foo" None = ["/abs/foo"]
  /\ Pkg.importSpecifierList "/abs/foo" None = ["/abs/foo"]
  /\ Src.importSpecifierList noOptions "foo/bar" None = ["foo/bar"; "./foo/bar"]
  /\ Pkg.importSpecifierList "foo/bar" None = ["foo/bar"; "./foo/bar"]
  /\ Src.importSpecifierList noOptions "foo/bar" (Some "/proj/src/a.js") = ["foo/bar"]
  /\ Pkg.importSpecifierList "foo/bar" (Some "/proj/src/a.js") = ["foo/bar"].
Proof. repeat split; vm_compute; reflexivity. Qed.

(** ** The hook *)

(** Every resolver call of a request is made with the directory the loop
    is given. *)
Lemma Src_engine_directory (userOptions : Options) (env : Env)
    (rawImportee : string) (importer : option string) (d s : string) :
  List.In (d, s)
    (engineCalls (events (Src.resolveLikeNode userOptions env rawImportee importer))) ->
  d = match importer with Some i => i | None => cwd env end.
Proof.
  destruct (Src.gateRejects userOptions env (Src.importPath rawImportee) importer) eqn:Hgate.
  - unfold Src.resolveLikeNode. rewrite Hgate.
    destruct (Js.includes (normalizeInput (input env)) (Src.importPath rawImportee));
      intros [].
  - destruct (Src.importeeIsBuiltin userOptions env (Src.importPath rawImportee)
              && Src.preferImporteeIsBuiltin userOptions (Src.importPath rawImportee))
      eqn:Hpre.
    + unfold Src.resolveLikeNode. rewrite Hgate, Hpre. intros [].
    + destruct (Src_resolveLikeNode_probed userOptions env rawImportee importer Hgate Hpre)
        as [Hcalls _].
      rewrite Hcalls. intros Hin.
      apply in_map_iff in Hin. destruct Hin as [c [Hc _]].
      injection Hc as Hd _. symmetry. exact Hd.
Qed.

Lemma Pkg_engine_directory (userOptions : Options) (env : Env)
    (rawImportee : string) (importer : option string) (d s : string) :
  List.In (d, s)
    (engineCalls (events (Pkg.resolveLikeNode userOptions env rawImportee importer))) ->
  d = match importer with
      | None => Pkg.baseDir userOptions env importer
      | Some i => dirname env i
      end.
Proof.
  destruct (Pkg.gateRejects userOptions env (Pkg.importPath rawImportee) importer) eqn:Hgate.
  - unfold Pkg.resolveLikeNode. rewrite Hgate.
    destruct (Js.includes (normalizeInput (input env)) (Pkg.importPath rawImportee));
      intros [].
  - destruct (Pkg.importeeIsBuiltin userOptions env (Pkg.importPath rawImportee)
              && Pkg.preferImporteeIsBuiltin userOptions (Pkg.importPath rawImportee))
      eqn:Hpre.
    + unfold Pkg.resolveLikeNode. rewrite Hgate, Hpre. intros [].
    + destruct (Pkg_resolveLikeNode_probed userOptions env rawImportee importer Hgate Hpre)
        as [Hcalls _].
      rewrite Hcalls. intros Hin.
      apply in_map_iff in Hin. destruct Hin as [c [Hc _]].
      injection Hc as Hd _. symmetry. exact Hd.
Qed.

(** The resolver calls of the hook are those of [resolveLikeNode] on the
    importer the hook passes on, or none. *)
Lemma Src_handler_engineCalls (userOptions : Options) (env : Env)
    (importee : string) (importer : option string) (resolveOptions : ResolveOptions) :
  let passedOn := match importer with
                  | Some i => if hasNul i then None else Some i
                  | None => None
                  end in
  engineCalls (events (Src.handler userOptions env importee importer resolveOptions)) = []
  \/ engineCalls (events (Src.handler userOptions env importee importer resolveOptions))
     = engineCalls (events (Src.resolveLikeNode userOptions env importee passedOn)).
Proof.
  intros passedOn. unfold Src.handler. fold passedOn.
  destruct (String.eqb importee ES6_BROWSER_EMPTY); [left; reflexivity|].
  destruct (negb (Js.truthy importee)); [left; reflexivity|].
  destruct (hasNul importee); [left; reflexivity|].
  destruct (nrResolved resolveOptions); [left; reflexivity|].
  right. rewrite events_bind, engineCalls_app.
  destruct (result (Src.resolveLikeNode userOptions env importee passedOn)) as [| |s|r];
    try (simpl; rewrite app_nil_r; reflexivity).
  rewrite events_bind, engineCalls_app.
  destruct (hostResolve env (id r) passedOn _) as [rr|]; simpl.
  - destruct (isExternal rr); [|destruct (negb (String.eqb (id rr) (id r)))];
      simpl; rewrite app_nil_r; reflexivity.
  - rewrite app_nil_r; reflexivity.
Qed.

Lemma Pkg_handler_engineCalls (userOptions : Options) (env : Env)
    (importee : string) (importer : option string) (resolveOptions : ResolveOptions) :
  let passedOn := match importer with
                  | Some i => if hasNul i then None else Some i
                  | None => None
                  end in
  engineCalls (events (Pkg.handler userOptions env importee importer resolveOptions)) = []
  \/ engineCalls (events (Pkg.handler userOptions env importee importer resolveOptions))
     = engineCalls (events (Pkg.resolveLikeNode userOptions env importee passedOn)).
Proof.
  intros passedOn. unfold Pkg.handler. fold passedOn.
  destruct (String.eqb importee ES6_BROWSER_EMPTY); [left; reflexivity|].
  destruct (negb (Js.truthy importee)); [left; reflexivity|].
  destruct (hasNul importee); [left; reflexivity|].
  destruct (nrResolved resolveOptions); [left; reflexivity|].
  right. rewrite events_bind, engineCalls_app.
  destruct (result (Pkg.resolveLikeNode userOptions env importee passedOn)) as [| |s|r];
    try (simpl; rewrite app_nil_r; reflexivity).
  rewrite events_bind, engineCalls_app.
  destruct (hostResolve env (id r) passedOn _) as [rr|]; simpl.
  - destruct (isExternal rr); [|destruct (negb (String.eqb (id rr) (id r)))];
      simpl; rewrite app_nil_r; reflexivity.
  - rewrite app_nil_r; reflexivity.
Qed.

(** C10.  In both variants of the hook: (1) the empty-module sentinel is
    returned as itself, with nothing done; (2) any other specifier that is
    empty or holds a NUL character is answered by null, with nothing done
    (no classification, no resolver call, no call of the host); (3) a
    request whose importer holds a NUL character is handled exactly as the
    same request with no importer: same outcome, same log; its base
    directory is the working directory ([src/index.ts]) or [rootDir] (the
    other variant), and so is the directory of every resolver call. *)
Theorem C10_hook_guards (userOptions : Options) (env : Env) (importee : string)
    (importer : option string) (resolveOptions : ResolveOptions) :
  (Src.handler userOptions env ES6_BROWSER_EMPTY importer resolveOptions
   = (OStr ES6_BROWSER_EMPTY, [])
   /\ Pkg.handler userOptions env ES6_BROWSER_EMPTY importer resolveOptions
      = (OStr ES6_BROWSER_EMPTY, []))
  /\ (importee <> ES6_BROWSER_EMPTY ->
      importee = "" \/ hasNul importee = true ->
      Src.handler userOptions env importee importer resolveOptions = (ONull, [])
      /\ Pkg.handler userOptions env importee importer resolveOptions = (ONull, []))
  /\ (forall i : string,
        hasNul i = true ->
        Src.handler userOptions env importee (Some i) resolveOptions
        = Src.handler userOptions env importee None resolveOptions
        /\ Pkg.handler userOptions env importee (Some i) resolveOptions
           = Pkg.handler userOptions env importee None resolveOptions
        /\ Src.baseDir env None = cwd env
        /\ Pkg.baseDir userOptions env None = Pkg.rootDir userOptions env
        /\ (forall d s,
              List.In (d, s)
                (engineCalls (events (Src.handler userOptions env importee (Some i)
                                        resolveOptions))) ->
              d = cwd env)
        /\ (forall d s,
              List.In (d, s)
                (engineCalls (events (Pkg.handler userOptions env importee (Some i)
                                        resolveOptions))) ->
              d = Pkg.rootDir userOptions env)).
Proof.
  split; [split; reflexivity|]. split.
  - intros Hsentinel Hbad.
    apply String.eqb_neq in Hsentinel.
    unfold Src.handler, Pkg.handler. rewrite Hsentinel.
    destruct Hbad as [Hempty|Hnul].
    + subst importee. split; reflexivity.
    + rewrite Hnul.
      destruct (negb (Js.truthy importee)); split; reflexivity.
  - intros i Hnul.
    split; [|split; [|split; [|split; [|split]]]].
    + unfold Src.handler. rewrite Hnul. reflexivity.
    + unfold Pkg.handler. rewrite Hnul. reflexivity.
    + reflexivity.
    + reflexivity.
    + intros d s Hin.
      destruct (Src_handler_engineCalls userOptions env importee (Some i) resolveOptions)
        as [Hnone|Hsame].
      * rewrite Hnone in Hin. destruct Hin.
      * rewrite Hsame, Hnul in Hin.
        exact (Src_engine_directory userOptions env importee None d s Hin).
    + intros d s Hin.
      destruct (Pkg_handler_engineCalls userOptions env importee (Some i) resolveOptions)
        as [Hnone|Hsame].
      * rewrite Hnone in Hin. destruct Hin.
      * rewrite Hsame, Hnul in Hin.
        exact (Pkg_engine_directory userOptions env importee None d s Hin).
Qed.

(** C10 at a specifier that starts with a NUL character, and at the
    import of [./foo] from a virtual module whose id starts with one. *)
Lemma C10_hook_guards_witness :
  Src.handler noOptions (Fixture.build ["src/index.js"])
    (String Ascii.zero "virtual:entry") (Some "/proj/src/a.js") Fixture.freshRequest
  = (ONull, [])
  /\ Src.handler noOptions (Fixture.build ["src/index.js"]) "./foo"
       (Some (String Ascii.zero "virtual:entry")) Fixture.freshRequest
     = Src.handler noOptions (Fixture.build ["src/index.js"]) "./foo" None
         Fixture.freshRequest.
Proof.
  split.
  - refine (proj1 (proj1 (proj2 (C10_hook_guards noOptions (Fixture.build ["src/index.js"])
                                   (String Ascii.zero "virtual:entry")
                                   (Some "/proj/src/a.js") Fixture.freshRequest))
                         _ (or_intror eq_refl))).
    discriminate.
  - exact (proj1 (proj2 (proj2 (C10_hook_guards noOptions (Fixture.build ["src/index.js"])
                                  "./foo" None Fixture.freshRequest))
                        (String Ascii.zero "virtual:entry") eq_refl)).
Defined.

(** * Further properties of the code *)

(** ** String patterns of [resolveOnly] *)

Lemma literalOfBody_escape (c : ascii) (rest : string) :
  literalOfBody (escapePattern (String c rest) +++ "$")
  = option_map (String c) (literalOfBody (escapePattern rest +++ "$")).
Proof.
  destruct c as [[] [] [] [] [] [] [] []]; reflexivity.
Qed.

(** X1.  The class of characters that [allowPatterns] escapes covers every
    syntax character of the pattern grammar: the regular expression it
    builds from a string pattern, [^] then the escaped pattern then [$],
    holds no unescaped syntax character and no other escape, and the text
    it matches in full is the pattern's own text, whatever characters the
    pattern holds.  This is the reading [patternTest] gives a string
    pattern. *)
Theorem X1_escaped_pattern_is_literal (pattern x : string) :
  literalOfSource (patternSource pattern) = Some pattern
  /\ option_map (fun literal => String.eqb literal x)
                (literalOfSource (patternSource pattern))
     = Some (patternTest (PatString pattern) x).
Proof.
  assert (E : literalOfSource (patternSource pattern) = Some pattern).
  { unfold patternSource, literalOfSource.
    change ("^" +++ escapePattern pattern +++ "$")
      with (String "^" (escapePattern pattern +++ "$")).
    induction pattern as [|c rest IH]; [reflexivity|].
    rewrite literalOfBody_escape, IH. reflexivity. }
  split; [exact E|]. rewrite E. reflexivity.
Qed.

(** ** Package names *)

Lemma split_no_separator (sep : ascii -> bool) (a : string) :
  anyChar sep a = false -> Js.split sep a = [a].
Proof.
  induction a as [|c a IH]; cbn [anyChar Js.split]; intros H; [reflexivity|].
  apply orb_false_elim in H. destruct H as [Hc Ha].
  rewrite Hc, (IH Ha). reflexivity.
Qed.

Lemma split_at_separator (sep : ascii -> bool) (a b : string) (c : ascii) :
  anyChar sep a = false -> sep c = true ->
  Js.split sep (a +++ String c b) = a :: Js.split sep b.
Proof.
  intros Ha Hc.
  induction a as [|d a IH].
  - cbn [String.append Js.split]. rewrite Hc. reflexivity.
  - cbn [anyChar] in Ha. apply orb_false_elim in Ha. destruct Ha as [Hd Ha].
    change (String d a +++ String c b) with (String d (a +++ String c b)).
    cbn [Js.split]. rewrite Hd, (IH Ha). reflexivity.
Qed.

Lemma splitSegments_one (a : string) :
  anyChar isSeparator a = false -> splitSegments a = [a].
Proof. apply split_no_separator. Qed.

Lemma splitSegments_cons (a b : string) (c : ascii) :
  anyChar isSeparator a = false -> isSeparator c = true ->
  splitSegments (a +++ String c b) = a :: splitSegments b.
Proof. apply split_at_separator. Qed.

(** The two tests of [classify] on the first character of a segment. *)
Lemma first_char_tests (segment : string) :
  Js.index0 segment <> Some "@" -> Js.index0 segment <> Some "." ->
  match Js.index0 segment with Some c => String.eqb c "@" | None => false end = false
  /\ match Js.index0 segment with Some c => String.eqb c "." | None => false end = false.
Proof.
  intros Hat Hdot. destruct (Js.index0 segment) as [c|]; [|split; reflexivity].
  split; apply String.eqb_neq; intros E; subst c; [apply Hat | apply Hdot]; reflexivity.
Qed.

(** The segments that [classify] keeps as the package name. *)
Lemma classify_segments (env : Env) (base first second rest : string) (c1 c2 : ascii) :
  isSeparator c1 = true -> isSeparator c2 = true ->
  anyChar isSeparator first = false -> anyChar isSeparator second = false ->
  (Js.index0 first <> Some "@" -> Js.index0 first <> Some "." ->
   classify env base first = (first, false)
   /\ classify env base (first +++ String c1 rest) = (first, false))
  /\ (Js.index0 first = Some "@" ->
      classify env base first = (first, false)
      /\ classify env base (first +++ String c1 second)
         = (first +++ "/" +++ second, false)
      /\ classify env base (first +++ String c1 (second +++ String c2 rest))
         = (first +++ "/" +++ second, false)).
Proof.
  intros Hc1 Hc2 Hfirst Hsecond. split.
  - intros Hat Hdot.
    destruct (first_char_tests first Hat Hdot) as [E1 E2].
    unfold classify.
    rewrite (splitSegments_one first Hfirst), (splitSegments_cons first rest c1 Hfirst Hc1).
    cbn [List.hd List.tl]. rewrite E1, E2. split; reflexivity.
  - intros Hat. unfold classify.
    rewrite (splitSegments_one first Hfirst).
    rewrite (splitSegments_cons first second c1 Hfirst Hc1).
    rewrite (splitSegments_cons first (second +++ String c2 rest) c1 Hfirst Hc1).
    rewrite (splitSegments_one second Hsecond).
    rewrite (splitSegments_cons second rest c2 Hsecond Hc2).
    cbn [List.hd List.tl List.length]. rewrite Hat.
    repeat split; reflexivity.
Qed.

(** X3.  The package name of a bare specifier is its first segment, up to
    the first slash or backslash, whatever follows; for a specifier whose
    first segment starts with [@] and is followed by a second segment, it
    is the first two segments joined by a slash (also when a backslash
    separated them); a lone [@scope] is its own package name.  None of
    these is classified as relative. *)
Theorem X3_package_name (env : Env) (base first second rest : string) (c1 c2 : ascii) :
  isSeparator c1 = true -> isSeparator c2 = true ->
  anyChar isSeparator first = false -> anyChar isSeparator second = false ->
  (Js.index0 first <> Some "@" -> Js.index0 first <> Some "." ->
   classify env base first = (first, false)
   /\ classify env base (first +++ String c1 rest) = (first, false))
  /\ (Js.index0 first = Some "@" ->
      classify env base first = (first, false)
      /\ classify env base (first +++ String c1 second)
         = (first +++ "/" +++ second, false)
      /\ classify env base (first +++ String c1 (second +++ String c2 rest))
         = (first +++ "/" +++ second, false)).
Proof.
  exact (classify_segments env base first second rest c1 c2).
Qed.

(** X3 at [lodash\fp] and [@scope\name/sub]. *)
Lemma X3_package_name_witness :
  classify (Fixture.build []) "/proj/src" "lodash\fp" = ("lodash", false)
  /\ classify (Fixture.build []) "/proj/src" "@scope\name/sub" = ("@scope/name", false).
Proof.
  split.
  - refine (proj2 (proj1 (X3_package_name (Fixture.build []) "/proj/src"
                            "lodash" "" "fp" "\" "/" eq_refl eq_refl eq_refl eq_refl) _ _));
      discriminate.
  - exact (proj2 (proj2 (proj2 (X3_package_name (Fixture.build []) "/proj/src"
                                  "@scope" "name" "sub" "\" "/"
                                  eq_refl eq_refl eq_refl eq_refl) eq_refl))).
Defined.

(** X4.  The resolve-only gate decides on the package name alone: a bare
    specifier [name/rest] is rejected or deferred exactly when [resolveOnly]
    refuses [name], and a scoped [@scope/name/rest] exactly when it refuses
    [@scope/name]; the subpath plays no role.  In both variants. *)
Theorem X4_gate_decides_on_package_name (userOptions : Options) (env : Env)
    (first second rest : string) (importer : option string) :
  anyChar isSeparator first = false -> anyChar isSeparator second = false ->
  (Js.index0 first <> Some "@" -> Js.index0 first <> Some "." ->
   Src.gateRejects userOptions env (first +++ "/" +++ rest) importer
   = negb (Src.resolveOnly userOptions first)
   /\ Pkg.gateRejects userOptions env (first +++ "/" +++ rest) importer
      = negb (Pkg.resolveOnly userOptions first))
  /\ (Js.index0 first = Some "@" ->
      Src.gateRejects userOptions env (first +++ "/" +++ second +++ "/" +++ rest) importer
      = negb (Src.resolveOnly userOptions (first +++ "/" +++ second))
      /\ Pkg.gateRejects userOptions env (first +++ "/" +++ second +++ "/" +++ rest) importer
         = negb (Pkg.resolveOnly userOptions (first +++ "/" +++ second))).
Proof.
  intros Hfirst Hsecond. split.
  - intros Hat Hdot. unfold Src.gateRejects, Pkg.gateRejects.
    change (first +++ "/" +++ rest) with (first +++ String "/" rest).
    rewrite (proj2 (proj1 (classify_segments env (Src.baseDir env importer) first second rest
                             "/" "/" eq_refl eq_refl Hfirst Hsecond) Hat Hdot)).
    rewrite (proj2 (proj1 (classify_segments env (Pkg.baseDir userOptions env importer)
                             first second rest
                             "/" "/" eq_refl eq_refl Hfirst Hsecond) Hat Hdot)).
    split; reflexivity.
  - intros Hat. unfold Src.gateRejects, Pkg.gateRejects.
    change (first +++ "/" +++ second +++ "/" +++ rest)
      with (first +++ String "/" (second +++ String "/" rest)).
    rewrite (proj2 (proj2 (proj2 (classify_segments env (Src.baseDir env importer)
                                    first second rest
                                    "/" "/" eq_refl eq_refl Hfirst Hsecond) Hat))).
    rewrite (proj2 (proj2 (proj2 (classify_segments env (Pkg.baseDir userOptions env importer)
                                    first second rest
                                    "/" "/" eq_refl eq_refl Hfirst Hsecond) Hat))).
    split; reflexivity.
Qed.

(** X4 under [resolveOnly: ['lodash']]: [lodash/fp] passes the gate. *)
Lemma X4_gate_decides_on_package_name_witness :
  Src.gateRejects Fixture.onlyLodash (Fixture.build []) "lodash/fp" (Some "/proj/src/a.js")
  = false.
Proof.
  refine (proj1 (proj1 (X4_gate_decides_on_package_name Fixture.onlyLodash (Fixture.build [])
                          "lodash" "" "fp" (Some "/proj/src/a.js") eq_refl eq_refl) _ _));
    discriminate.
Defined.

(** ** Prefixes and suffixes *)

Lemma append_assoc (a b c : string) : (a +++ b) +++ c = a +++ (b +++ c).
Proof. induction a as [|x a IH]; simpl; [reflexivity | rewrite IH; reflexivity]. Qed.

Lemma length_append (a b : string) :
  String.length (a +++ b) = String.length a + String.length b.
Proof. induction a as [|x a IH]; simpl; [reflexivity | rewrite IH; reflexivity]. Qed.

Lemma substring_all (s : string) : substring 0 (String.length s) s = s.
Proof. induction s as [|x s IH]; simpl; [reflexivity | rewrite IH; reflexivity]. Qed.

Lemma substring_prefix (a b : string) : substring 0 (String.length a) (a +++ b) = a.
Proof.
  induction a as [|x a IH]; simpl.
  - destruct b; reflexivity.
  - rewrite IH. reflexivity.
Qed.

Lemma substring_skip (a b : string) (n : nat) :
  substring (String.length a) n (a +++ b) = substring 0 n b.
Proof. induction a as [|x a IH]; simpl; [reflexivity | exact IH]. Qed.

Lemma substring_split (s : string) (n : nat) :
  n <= String.length s ->
  s = substring 0 n s +++ substring n (String.length s - n) s.
Proof.
  revert n. induction s as [|x s IH]; intros n Hn.
  - simpl in Hn. assert (n = 0) by lia. subst n. reflexivity.
  - destruct n as [|n].
    + cbn [substring String.append]. change (String.length (String x s) - 0)
        with (S (String.length s)).
      cbn [substring]. rewrite substring_all. reflexivity.
    + simpl in Hn. cbn [substring String.length Nat.sub String.append].
      rewrite <- (IH n); [reflexivity | lia].
Qed.

(** [endsWith] holds exactly of the strings made of some text followed by
    the suffix, and [slice(0, -n)] gives that text back. *)
Lemma endsWith_append (a suffix : string) : Js.endsWith (a +++ suffix) suffix = true.
Proof.
  unfold Js.endsWith. rewrite length_append.
  replace (String.length a + String.length suffix - String.length suffix)
    with (String.length a) by lia.
  rewrite substring_skip, substring_all, String.eqb_refl.
  rewrite andb_true_r. apply Nat.leb_le. lia.
Qed.

Lemma endsWith_inv (s suffix : string) :
  Js.endsWith s suffix = true -> exists a, s = a +++ suffix.
Proof.
  unfold Js.endsWith. intros H.
  apply andb_true_iff in H. destruct H as [Hle Heq].
  apply Nat.leb_le in Hle. apply String.eqb_eq in Heq.
  exists (substring 0 (String.length s - String.length suffix) s).
  assert (Hs := substring_split s (String.length s - String.length suffix)
                  (Nat.le_sub_l _ _)).
  replace (String.length s - (String.length s - String.length suffix))
    with (String.length suffix) in Hs by lia.
  rewrite Heq in Hs. exact Hs.
Qed.

Lemma sliceDropEnd_append (a suffix : string) :
  Js.sliceDropEnd (a +++ suffix) (String.length suffix) = a.
Proof.
  unfold Js.sliceDropEnd. rewrite length_append.
  replace (String.length a + String.length suffix - String.length suffix)
    with (String.length a) by lia.
  apply substring_prefix.
Qed.

Lemma reverse_append (a b : string) : reverse (a +++ b) = reverse b +++ reverse a.
Proof.
  induction a as [|x a IH]; simpl.
  - rewrite append_empty_r. reflexivity.
  - rewrite IH, append_assoc. reflexivity.
Qed.

(** Two suffixes whose texts differ at some position counted from the end
    cannot both end one string. *)
Ltac suffix_clash H1 H2 :=
  let a := fresh "a" in
  let b := fresh "b" in
  let Ha := fresh "Ha" in
  let Hb := fresh "Hb" in
  apply endsWith_inv in H1; destruct H1 as [a Ha];
  apply endsWith_inv in H2; destruct H2 as [b Hb];
  rewrite Ha in Hb; apply (f_equal reverse) in Hb;
  rewrite !reverse_append in Hb; cbn [reverse String.append] in Hb;
  discriminate Hb.

Lemma js_endings_exclusive (s : string) :
  (Js.endsWith s ".js" = true -> Js.endsWith s ".jsx" = false
                                 /\ Js.endsWith s ".mjs" = false
                                 /\ Js.endsWith s ".cjs" = false)
  /\ (Js.endsWith s ".jsx" = true -> Js.endsWith s ".mjs" = false
                                     /\ Js.endsWith s ".cjs" = false)
  /\ (Js.endsWith s ".mjs" = true -> Js.endsWith s ".cjs" = false).
Proof.
  repeat match goal with
         | |- _ /\ _ => split
         | |- _ -> _ => intro
         end;
    match goal with
    | H : Js.endsWith s ?x = true |- Js.endsWith s ?y = false =>
        destruct (Js.endsWith s y) eqn:E; [exfalso; suffix_clash H E | reflexivity]
    end.
Qed.

(** ** The [node:] prefix *)

Lemma stripNodePrefix_prefixed (x : string) : stripNodePrefix ("node:" +++ x) = x.
Proof.
  unfold stripNodePrefix.
  change ("node:" +++ x)
    with (String "n" (String "o" (String "d" (String "e" (String ":" x))))).
  cbn [Js.startsWith]. change (Ascii.eqb "n" "n") with true.
  change (Ascii.eqb "o" "o") with true. change (Ascii.eqb "d" "d") with true.
  change (Ascii.eqb "e" "e") with true. change (Ascii.eqb ":" ":") with true.
  cbn [andb String.length Nat.sub substring].
  rewrite Nat.sub_0_r. apply substring_all.
Qed.

(** X5.  A specifier [node:x] counts as a builtin exactly when builtin
    recognition is on and the list of platform builtins holds [x], the
    name without the prefix, in both variants.  So a builtin that the
    platform lists only under a prefixed name is not recognized when it is
    imported under that name. *)
Theorem X5_node_prefix_is_stripped (userOptions : Options) (env : Env) (x : string) :
  Src.importeeIsBuiltin userOptions env ("node:" +++ x)
  = Src.useBuiltinModules userOptions && Js.includes (nodeBuiltinModules env) x
  /\ Pkg.importeeIsBuiltin userOptions env ("node:" +++ x)
     = Pkg.useBuiltinModules userOptions && Js.includes (nodeBuiltinModules env) x
  /\ (Js.includes (nodeBuiltinModules env) x = false ->
      Src.importeeIsBuiltin userOptions env ("node:" +++ x) = false
      /\ Pkg.importeeIsBuiltin userOptions env ("node:" +++ x) = false).
Proof.
  unfold Src.importeeIsBuiltin, Pkg.importeeIsBuiltin.
  rewrite stripNodePrefix_prefixed.
  split; [reflexivity|]. split; [reflexivity|].
  intros H. rewrite H, !andb_false_r. split; reflexivity.
Qed.

(** X5 for a platform that lists [node:test] but not [test]: the import
    of [node:test] is not taken for a builtin. *)
Lemma X5_node_prefix_witness :
  Pkg.importeeIsBuiltin noOptions
    {| cwd := "/proj"; dirname := Fixture.posixDirname; pathResolve := Fixture.joinPath;
       nodeBuiltinModules := ["fs"; "node:test"]; engine := Fixture.engineOf;
       input := InputArray []; hostResolve := fun _ _ o => nrResolved o |}
    "node:test" = false.
Proof.
  exact (proj2 (proj2 (proj2 (X5_node_prefix_is_stripped noOptions
    {| cwd := "/proj"; dirname := Fixture.posixDirname; pathResolve := Fixture.joinPath;
       nodeBuiltinModules := ["fs"; "node:test"]; engine := Fixture.engineOf;
       input := InputArray []; hostResolve := fun _ _ o => nrResolved o |}
    "test")) eq_refl)).
Defined.

(** ** TypeScript candidates by ending *)

Lemma Src_ts_candidates (userOptions : Options) (importee importer : string) :
  isTypeScriptFile importer = true ->
  Src.importSpecifierList userOptions importee (Some importer)
  = importee :: List.map (swappedExtension importee)
                         (List.filter (applicablePair userOptions importee)
                                      Src.tsExtensionPairs).
Proof.
  intros Hts. unfold Src.importSpecifierList.
  cbn [Js.truthyOpt Js.toString andb].
  rewrite (isTypeScriptFile_truthy importer Hts), Hts.
  cbn [andb]. rewrite pushTsVariant_fold. reflexivity.
Qed.

(** Which of the four endings hold of a specifier that has one of them. *)
Lemma ending_table (s : string) :
  (Js.endsWith s ".js" = true ->
   Js.endsWith s ".jsx" = false /\ Js.endsWith s ".mjs" = false
   /\ Js.endsWith s ".cjs" = false)
  /\ (Js.endsWith s ".jsx" = true ->
      Js.endsWith s ".js" = false /\ Js.endsWith s ".mjs" = false
      /\ Js.endsWith s ".cjs" = false)
  /\ (Js.endsWith s ".mjs" = true ->
      Js.endsWith s ".js" = false /\ Js.endsWith s ".jsx" = false
      /\ Js.endsWith s ".cjs" = false)
  /\ (Js.endsWith s ".cjs" = true ->
      Js.endsWith s ".js" = false /\ Js.endsWith s ".jsx" = false
      /\ Js.endsWith s ".mjs" = false).
Proof.
  destruct (js_endings_exclusive s) as [Hjs [Hjsx Hmjs]].
  destruct (Js.endsWith s ".js"); destruct (Js.endsWith s ".jsx");
    destruct (Js.endsWith s ".mjs"); destruct (Js.endsWith s ".cjs");
    repeat match goal with
           | H : true = true -> _ |- _ => specialize (H eq_refl)
           | H : _ /\ _ |- _ => destruct H
           | H : true = false |- _ => discriminate H
           end;
    repeat split; intros; try reflexivity; try discriminate.
Qed.

(** The applicable pairs, by ending. *)
Lemma applicable_pairs_by_ending (userOptions : Options) (importee : string) :
  let has := Js.includes (Src.extensions userOptions) in
  (Js.endsWith importee ".js" = true ->
   List.filter (applicablePair userOptions importee) Src.tsExtensionPairs
   = (if has ".ts" then [(".js", ".ts")] else [])
     ++ (if has ".tsx" then [(".js", ".tsx")] else []))
  /\ (Js.endsWith importee ".jsx" = true ->
      List.filter (applicablePair userOptions importee) Src.tsExtensionPairs
      = if has ".tsx" then [(".jsx", ".tsx")] else [])
  /\ (Js.endsWith importee ".mjs" = true ->
      List.filter (applicablePair userOptions importee) Src.tsExtensionPairs
      = if has ".mts" then [(".mjs", ".mts")] else [])
  /\ (Js.endsWith importee ".cjs" = true ->
      List.filter (applicablePair userOptions importee) Src.tsExtensionPairs
      = if has ".cts" then [(".cjs", ".cts")] else [])
  /\ (Js.endsWith importee ".js" = false -> Js.endsWith importee ".jsx" = false ->
      Js.endsWith importee ".mjs" = false -> Js.endsWith importee ".cjs" = false ->
      List.filter (applicablePair userOptions importee) Src.tsExtensionPairs = []).
Proof.
  intros has.
  destruct (ending_table importee) as [Tjs [Tjsx [Tmjs Tcjs]]].
  unfold Src.tsExtensionPairs, applicablePair. cbn [List.filter fst snd]. fold has.
  repeat split.
  - intros H. destruct (Tjs H) as [A [B C]]. rewrite H, A, B, C. cbn [andb].
    destruct (has ".ts"); destruct (has ".tsx"); reflexivity.
  - intros H. destruct (Tjsx H) as [A [B C]]. rewrite H, A, B, C. cbn [andb].
    destruct (has ".tsx"); reflexivity.
  - intros H. destruct (Tmjs H) as [A [B C]]. rewrite H, A, B, C. cbn [andb].
    destruct (has ".mts"); reflexivity.
  - intros H. destruct (Tcjs H) as [A [B C]]. rewrite H, A, B, C. cbn [andb].
    destruct (has ".cts"); reflexivity.
  - intros A B C D. rewrite A, B, C, D. reflexivity.
Qed.

(** X6.  Under a TypeScript importer, in [src/index.ts]: a specifier
    [stem.js] is followed by [stem.ts] and then [stem.tsx], each only if
    [extensions] lists it; [stem.jsx] by [stem.tsx]; [stem.mjs] by
    [stem.mts]; [stem.cjs] by [stem.cts]; for any stem. *)
Theorem X6_ts_candidates_by_ending (userOptions : Options) (stem importer : string) :
  isTypeScriptFile importer = true ->
  let has := Js.includes (Src.extensions userOptions) in
  Src.importSpecifierList userOptions (stem +++ ".js") (Some importer)
  = (stem +++ ".js") :: (if has ".ts" then [stem +++ ".ts"] else [])
                        ++ (if has ".tsx" then [stem +++ ".tsx"] else [])
  /\ Src.importSpecifierList userOptions (stem +++ ".jsx") (Some importer)
     = (stem +++ ".jsx") :: (if has ".tsx" then [stem +++ ".tsx"] else [])
  /\ Src.importSpecifierList userOptions (stem +++ ".mjs") (Some importer)
     = (stem +++ ".mjs") :: (if has ".mts" then [stem +++ ".mts"] else [])
  /\ Src.importSpecifierList userOptions (stem +++ ".cjs") (Some importer)
     = (stem +++ ".cjs") :: (if has ".cts" then [stem +++ ".cts"] else []).
Proof.
  intros Hts has.
  rewrite !(Src_ts_candidates userOptions _ importer Hts).
  destruct (applicable_pairs_by_ending userOptions (stem +++ ".js")) as [Ejs _].
  destruct (applicable_pairs_by_ending userOptions (stem +++ ".jsx")) as [_ [Ejsx _]].
  destruct (applicable_pairs_by_ending userOptions (stem +++ ".mjs")) as [_ [_ [Emjs _]]].
  destruct (applicable_pairs_by_ending userOptions (stem +++ ".cjs")) as [_ [_ [_ [Ecjs _]]]].
  rewrite (Ejs (endsWith_append stem ".js")), (Ejsx (endsWith_append stem ".jsx")),
    (Emjs (endsWith_append stem ".mjs")), (Ecjs (endsWith_append stem ".cjs")).
  fold has. unfold swappedExtension.
  repeat split.
  - destruct (has ".ts"); destruct (has ".tsx"); cbn [List.map List.app fst snd];
      rewrite ?(sliceDropEnd_append stem ".js"); reflexivity.
  - destruct (has ".tsx"); cbn [List.map fst snd];
      rewrite ?(sliceDropEnd_append stem ".jsx"); reflexivity.
  - destruct (has ".mts"); cbn [List.map fst snd];
      rewrite ?(sliceDropEnd_append stem ".mjs"); reflexivity.
  - destruct (has ".cts"); cbn [List.map fst snd];
      rewrite ?(sliceDropEnd_append stem ".cjs"); reflexivity.
Qed.

(** X6 for [./dir/mod.js] imported from [/proj/src/a.tsx] with
    [extensions: ['.ts', '.js']]. *)
Lemma X6_ts_candidates_witness :
  Src.importSpecifierList (Fixture.withExtensions [".ts"; ".js"] Absent)
    "./dir/mod.js" (Some "/proj/src/a.tsx")
  = ["./dir/mod.js"; "./dir/mod.ts"].
Proof.
  exact (proj1 (X6_ts_candidates_by_ending (Fixture.withExtensions [".ts"; ".js"] Absent)
                  "./dir/mod" "/proj/src/a.tsx" eq_refl)).
Defined.

(** ** How many candidates, how many resolver calls *)

Lemma applicable_pairs_at_most_two (userOptions : Options) (importee : string) :
  List.length (List.filter (applicablePair userOptions importee) Src.tsExtensionPairs) <= 2.
Proof.
  destruct (applicable_pairs_by_ending userOptions importee)
    as [Ejs [Ejsx [Emjs [Ecjs Enone]]]].
  destruct (Js.endsWith importee ".js") eqn:J.
  { rewrite (Ejs eq_refl).
    destruct (Js.includes (Src.extensions userOptions) ".ts");
      destruct (Js.includes (Src.extensions userOptions) ".tsx"); simpl; lia. }
  destruct (Js.endsWith importee ".jsx") eqn:X.
  { rewrite (Ejsx eq_refl).
    destruct (Js.includes (Src.extensions userOptions) ".tsx"); simpl; lia. }
  destruct (Js.endsWith importee ".mjs") eqn:M.
  { rewrite (Emjs eq_refl).
    destruct (Js.includes (Src.extensions userOptions) ".mts"); simpl; lia. }
  destruct (Js.endsWith importee ".cjs") eqn:C.
  { rewrite (Ecjs eq_refl).
    destruct (Js.includes (Src.extensions userOptions) ".cts"); simpl; lia. }
  rewrite (Enone eq_refl eq_refl eq_refl eq_refl). simpl; lia.
Qed.

Lemma Src_candidates_length (userOptions : Options) (importee : string)
    (importer : option string) :
  List.length (Src.importSpecifierList userOptions importee importer) <= 3.
Proof.
  destruct importer as [i|].
  - destruct (isTypeScriptFile i) eqn:T.
    + rewrite (Src_ts_candidates userOptions importee i T).
      cbn [List.length]. rewrite length_map.
      pose proof (applicable_pairs_at_most_two userOptions importee). lia.
    + unfold Src.importSpecifierList. cbn [Js.toString andb]. rewrite T, andb_false_r.
      simpl; lia.
  - unfold Src.importSpecifierList. cbn [Js.truthyOpt andb].
    destruct (negb (looksRelativeOrAbsolute (Js.toString (Js.index0 importee))));
      simpl; lia.
Qed.

Lemma Pkg_candidates_length (importee : string) (importer : option string) :
  List.length (Pkg.importSpecifierList importee importer)
  <= match importer with Some _ => 1 | None => 2 end.
Proof.
  destruct importer as [i|]; [simpl; lia|].
  unfold Pkg.importSpecifierList.
  destruct (true && Js.truthyOpt (Js.index0 importee)
            && negb (looksRelativeOrAbsolute (Js.toString (Js.index0 importee))));
    simpl; lia.
Qed.

(** A request makes no resolver call at all, or one per candidate. *)
Lemma Src_engineCalls_cases (userOptions : Options) (env : Env)
    (rawImportee : string) (importer : option string) :
  engineCalls (events (Src.resolveLikeNode userOptions env rawImportee importer)) = []
  \/ engineCalls (events (Src.resolveLikeNode userOptions env rawImportee importer))
     = List.map (fun c => (match importer with Some i => i | None => cwd env end, c))
                (Src.importSpecifierList userOptions (Src.importPath rawImportee) importer).
Proof.
  destruct (Src.gateRejects userOptions env (Src.importPath rawImportee) importer) eqn:Hgate.
  - left. unfold Src.resolveLikeNode. rewrite Hgate.
    destruct (Js.includes (normalizeInput (input env)) (Src.importPath rawImportee));
      reflexivity.
  - destruct (Src.importeeIsBuiltin userOptions env (Src.importPath rawImportee)
              && Src.preferImporteeIsBuiltin userOptions (Src.importPath rawImportee))
      eqn:Hpre.
    + left. unfold Src.resolveLikeNode. rewrite Hgate, Hpre. reflexivity.
    + right.
      exact (proj1 (Src_resolveLikeNode_probed userOptions env rawImportee importer
                      Hgate Hpre)).
Qed.

Lemma Pkg_engineCalls_cases (userOptions : Options) (env : Env)
    (rawImportee : string) (importer : option string) :
  engineCalls (events (Pkg.resolveLikeNode userOptions env rawImportee importer)) = []
  \/ engineCalls (events (Pkg.resolveLikeNode userOptions env rawImportee importer))
     = List.map (fun c => (match importer with
                           | None => Pkg.baseDir userOptions env importer
                           | Some i => dirname env i
                           end, c))
                (Pkg.importSpecifierList (Pkg.importPath rawImportee) importer).
Proof.
  destruct (Pkg.gateRejects userOptions env (Pkg.importPath rawImportee) importer) eqn:Hgate.
  - left. unfold Pkg.resolveLikeNode. rewrite Hgate.
    destruct (Js.includes (normalizeInput (input env)) (Pkg.importPath rawImportee));
      reflexivity.
  - destruct (Pkg.importeeIsBuiltin userOptions env (Pkg.importPath rawImportee)
              && Pkg.preferImporteeIsBuiltin userOptions (Pkg.importPath rawImportee))
      eqn:Hpre.
    + left. unfold Pkg.resolveLikeNode. rewrite Hgate, Hpre. reflexivity.
    + right.
      exact (proj1 (Pkg_resolveLikeNode_probed userOptions env rawImportee importer
                      Hgate Hpre)).
Qed.

(** X7.  A request calls the resolver at most three times in
    [src/index.ts] (the specifier, then either its [./] form or at most two
    TypeScript variants) and at most twice in the other variant, where a
    request with an importer calls it at most once. *)
Theorem X7_resolver_calls_bounded (userOptions : Options) (env : Env)
    (rawImportee : string) (importer : option string) :
  List.length (engineCalls (events (Src.resolveLikeNode userOptions env rawImportee
                                      importer))) <= 3
  /\ List.length (engineCalls (events (Pkg.resolveLikeNode userOptions env rawImportee
                                         importer)))
     <= match importer with Some _ => 1 | None => 2 end.
Proof.
  split.
  - destruct (Src_engineCalls_cases userOptions env rawImportee importer) as [E|E];
      rewrite E; [simpl; lia|].
    rewrite length_map. apply Src_candidates_length.
  - destruct (Pkg_engineCalls_cases userOptions env rawImportee importer) as [E|E];
      rewrite E; [destruct importer; simpl; lia|].
    rewrite length_map. apply Pkg_candidates_length.
Qed.

(** ** The directory of the resolver calls *)

(** X8.  All resolver calls of a request are made from one directory: in
    [src/index.ts] the importer's own path (not its directory), or the
    working directory at a graph root; in the other variant the importer's
    directory, or [rootDir], which is the working directory unless the
    option is given. *)
Theorem X8_resolver_directory (userOptions : Options) (env : Env)
    (rawImportee : string) (importer : option string) :
  List.Forall
    (fun call => fst call = match importer with Some i => i | None => cwd env end)
    (engineCalls (events (Src.resolveLikeNode userOptions env rawImportee importer)))
  /\ List.Forall
       (fun call => fst call = match importer with
                               | Some i => dirname env i
                               | None => Js.orDefault (o_rootDir userOptions) (cwd env)
                               end)
       (engineCalls (events (Pkg.resolveLikeNode userOptions env rawImportee importer))).
Proof.
  split; apply Forall_forall; intros [d s] Hin; cbn [fst].
  - exact (Src_engine_directory userOptions env rawImportee importer d s Hin).
  - rewrite (Pkg_engine_directory userOptions env rawImportee importer d s Hin).
    destruct importer as [i|]; [reflexivity|].
    unfold Pkg.baseDir, Pkg.rootDir, Pkg.options, spreadOptions.
    cbn [Js.truthyOpt o_rootDir Pkg.defaultOptions Js.spread].
    destruct (o_rootDir userOptions); reflexivity.
Qed.

(** ** Closed forms of the outcome *)

Lemma Src_outcome_when_gated (userOptions : Options) (env : Env)
    (rawImportee : string) (importer : option string) :
  Src.gateRejects userOptions env (Src.importPath rawImportee) importer = true ->
  Src.resolveLikeNode userOptions env rawImportee importer
  = (if Js.includes (normalizeInput (input env)) (Src.importPath rawImportee)
     then ONull else OFalse, []).
Proof.
  intros H. unfold Src.resolveLikeNode. rewrite H.
  destruct (Js.includes (normalizeInput (input env)) (Src.importPath rawImportee));
    reflexivity.
Qed.

Lemma Pkg_outcome_when_gated (userOptions : Options) (env : Env)
    (rawImportee : string) (importer : option string) :
  Pkg.gateRejects userOptions env (Pkg.importPath rawImportee) importer = true ->
  Pkg.resolveLikeNode userOptions env rawImportee importer
  = (if Js.includes (normalizeInput (input env)) (Pkg.importPath rawImportee)
     then ONull else OFalse, []).
Proof.
  intros H. unfold Pkg.resolveLikeNode. rewrite H.
  destruct (Js.includes (normalizeInput (input env)) (Pkg.importPath rawImportee));
    reflexivity.
Qed.

(** X9.  The outcome of [resolveLikeNode] of [src/index.ts] in closed
    form, with the loop and the unreachable branch gone: the gate's null or
    false; else null for a preferred builtin; else a record with no flag
    whose id is the text of the path answered for the last candidate
    followed by the query suffix.  So it answers false only at the gate and
    never marks an id external. *)
Theorem X9_src_outcome_closed_form (userOptions : Options) (env : Env)
    (rawImportee : string) (importer : option string) :
  let importee := Src.importPath rawImportee in
  let directory := match importer with Some i => i | None => cwd env end in
  let lastCandidate :=
    List.last (Src.importSpecifierList userOptions importee importer) importee in
  result (Src.resolveLikeNode userOptions env rawImportee importer)
  = if Src.gateRejects userOptions env importee importer
    then (if Js.includes (normalizeInput (input env)) importee then ONull else OFalse)
    else if Src.importeeIsBuiltin userOptions env importee
            && Src.preferImporteeIsBuiltin userOptions importee
    then ONull
    else ORec (idOnly (Js.toString (path (engine env directory lastCandidate))
                       +++ Src.importSuffix rawImportee)).
Proof.
  intros importee directory lastCandidate.
  destruct (Src.gateRejects userOptions env importee importer) eqn:Hgate.
  - rewrite (Src_outcome_when_gated userOptions env rawImportee importer Hgate).
    reflexivity.
  - destruct (Src.importeeIsBuiltin userOptions env importee
              && Src.preferImporteeIsBuiltin userOptions importee) eqn:Hpre.
    + unfold Src.resolveLikeNode. fold importee. rewrite Hgate, Hpre. reflexivity.
    + exact (proj2 (Src_resolveLikeNode_probed userOptions env rawImportee importer
                      Hgate Hpre)).
Qed.

(** X10.  The same for the variant listed after the README: the gate's
    null or false; else an External record of the package name for a
    preferred builtin; else, from the answer for the last candidate, an
    External record of the package name when its diagnostic starts with
    [Builtin module], and otherwise a record with no flag made from its
    path.  It never answers null once the gate is passed. *)
Theorem X10_pkg_outcome_closed_form (userOptions : Options) (env : Env)
    (rawImportee : string) (importer : option string) :
  let importee := Pkg.importPath rawImportee in
  let directory := match importer with
                   | None => Pkg.baseDir userOptions env importer
                   | Some i => dirname env i
                   end in
  let answer :=
    engine env directory (List.last (Pkg.importSpecifierList importee importer) importee) in
  let pkg := fst (classify env (Pkg.baseDir userOptions env importer) importee) in
  result (Pkg.resolveLikeNode userOptions env rawImportee importer)
  = if Pkg.gateRejects userOptions env importee importer
    then (if Js.includes (normalizeInput (input env)) importee then ONull else OFalse)
    else if Pkg.importeeIsBuiltin userOptions env importee
            && Pkg.preferImporteeIsBuiltin userOptions importee
    then ORec (externalId pkg)
    else if Js.truthyOpt (error answer)
            && Js.startsWith (Js.toString (error answer)) "Builtin module"
    then ORec (externalId pkg)
    else ORec (idOnly (Js.toString (path answer) +++ Pkg.importSuffix rawImportee)).
Proof.
  intros importee directory answer pkg.
  destruct (Pkg.gateRejects userOptions env importee importer) eqn:Hgate.
  - rewrite (Pkg_outcome_when_gated userOptions env rawImportee importer Hgate).
    reflexivity.
  - destruct (Pkg.importeeIsBuiltin userOptions env importee
              && Pkg.preferImporteeIsBuiltin userOptions importee) eqn:Hpre.
    + unfold Pkg.resolveLikeNode. fold importee. rewrite Hgate, Hpre. reflexivity.
    + exact (proj2 (Pkg_resolveLikeNode_probed userOptions env rawImportee importer
                      Hgate Hpre)).
Qed.

(** ** Which diagnostics are reported *)

Lemma warnings_app (l1 l2 : list Event) : warnings (l1 ++ l2) = warnings l1 ++ warnings l2.
Proof.
  induction l1 as [|e l1 IH]; simpl; [reflexivity|].
  destruct e; simpl; rewrite IH; reflexivity.
Qed.

Lemma hostCalls_app (l1 l2 : list Event) :
  hostCalls (l1 ++ l2) = hostCalls l1 ++ hostCalls l2.
Proof.
  induction l1 as [|e l1 IH]; simpl; [reflexivity|].
  destruct e; simpl; rewrite IH; reflexivity.
Qed.

(** The loops log no warning and no call of the host. *)
Lemma Src_probe_quiet (env : Env) (directory : string) (candidates : list string)
    (resolved : option ResolveResult) :
  warnings (events (Src.probe env directory candidates resolved)) = []
  /\ hostCalls (events (Src.probe env directory candidates resolved)) = [].
Proof.
  rewrite Src_probe_events.
  induction candidates as [|c l [IH1 IH2]]; split; simpl; auto.
Qed.

Lemma Pkg_probe_quiet (env : Env) (directory : string) (importer : option string)
    (candidates : list string) (resolved : option ResolveResult) :
  warnings (events (Pkg.probe env directory importer candidates resolved)) = []
  /\ hostCalls (events (Pkg.probe env directory importer candidates resolved)) = [].
Proof.
  revert resolved.
  induction candidates as [|c rest IH]; intros resolved; [split; reflexivity|].
  cbn [Pkg.probe]. rewrite !events_bind, !warnings_app, !hostCalls_app.
  change (events (tell (EngineCall directory c))) with [EngineCall directory c].
  change (events (tell (DebugLog c importer (engine env directory c))))
    with [DebugLog c importer (engine env directory c)].
  destruct (negb (Js.truthyOpt (path (engine env directory c))));
    destruct (IH (Some (engine env directory c))) as [IH1 IH2];
    rewrite IH1, IH2; split; reflexivity.
Qed.

(** X11.  Only the diagnostic of the last candidate is ever reported, and
    at most once: the plain warnings of a request are none, or the one
    non-empty diagnostic the resolver gave for the last candidate.  The
    diagnostics of the earlier candidates are dropped; and the variant
    listed after the README reports none that starts with
    [Builtin module]. *)
Theorem X11_only_last_diagnostic_reported (userOptions : Options) (env : Env)
    (rawImportee : string) (importer : option string) :
  (let importee := Src.importPath rawImportee in
   let directory := match importer with Some i => i | None => cwd env end in
   let answer :=
     engine env directory
       (List.last (Src.importSpecifierList userOptions importee importer) importee) in
   warnings (events (Src.resolveLikeNode userOptions env rawImportee importer)) = []
   \/ exists m, m <> ""
                /\ error answer = Some m
                /\ warnings (events (Src.resolveLikeNode userOptions env rawImportee
                                       importer)) = [m])
  /\ (let importee := Pkg.importPath rawImportee in
      let directory := match importer with
                       | None => Pkg.baseDir userOptions env importer
                       | Some i => dirname env i
                       end in
      let answer :=
        engine env directory
          (List.last (Pkg.importSpecifierList importee importer) importee) in
      warnings (events (Pkg.resolveLikeNode userOptions env rawImportee importer)) = []
      \/ exists m, m <> ""
                   /\ Js.startsWith m "Builtin module" = false
                   /\ error answer = Some m
                   /\ warnings (events (Pkg.resolveLikeNode userOptions env rawImportee
                                          importer)) = [m]).
Proof.
  split.
  - intros importee directory answer.
    destruct (Src.gateRejects userOptions env importee importer) eqn:Hgate.
    { left. rewrite (Src_outcome_when_gated userOptions env rawImportee importer Hgate).
      reflexivity. }
    destruct (Src.importeeIsBuiltin userOptions env importee
              && Src.preferImporteeIsBuiltin userOptions importee) eqn:Hpre.
    { left. unfold Src.resolveLikeNode. fold importee. rewrite Hgate, Hpre. reflexivity. }
    unfold Src.resolveLikeNode. fold importee. rewrite Hgate, Hpre. fold directory.
    rewrite !events_bind, !warnings_app, Src_probe_result.
    rewrite (proj1 (Src_probe_quiet env directory _ None)).
    destruct (Src_importSpecifierList_head userOptions importee importer) as [rest Hrest].
    destruct (rev_nonempty_last importee rest) as [tl Htl].
    unfold answer. rewrite Hrest, Htl.
    set (r := engine env directory (List.last (importee :: rest) importee)).
    destruct (error r) as [m|] eqn:Herr; [|left; reflexivity].
    destruct m as [|c m]; [left; reflexivity|].
    right. exists (String c m). split; [discriminate|]. split; reflexivity.
  - intros importee directory answer.
    destruct (Pkg.gateRejects userOptions env importee importer) eqn:Hgate.
    { left. rewrite (Pkg_outcome_when_gated userOptions env rawImportee importer Hgate).
      reflexivity. }
    destruct (Pkg.importeeIsBuiltin userOptions env importee
              && Pkg.preferImporteeIsBuiltin userOptions importee) eqn:Hpre.
    { left. unfold Pkg.resolveLikeNode. fold importee. rewrite Hgate, Hpre. reflexivity. }
    unfold Pkg.resolveLikeNode. fold importee. rewrite Hgate, Hpre. fold directory.
    rewrite !events_bind, !warnings_app, Pkg_probe_result.
    rewrite (proj1 (Pkg_probe_quiet env directory importer _ None)).
    destruct (Pkg_importSpecifierList_head importee importer) as [rest Hrest].
    destruct (rev_nonempty_last importee rest) as [tl Htl].
    unfold answer. rewrite Hrest, Htl.
    set (r := engine env directory (List.last (importee :: rest) importee)).
    destruct (error r) as [m|] eqn:Herr; [|left; reflexivity].
    destruct m as [|c m]; [left; reflexivity|].
    cbn [Js.truthyOpt Js.truthy Js.toString andb].
    destruct (Js.startsWith (String c m) "Builtin module") eqn:Hb; [left; reflexivity|].
    right. exists (String c m).
    split; [discriminate|]. split; [exact Hb|]. split; reflexivity.
Qed.

(** ** The preference policy as an option key *)

(** X12.  Leaving [preferBuiltins] out prefers every builtin; giving the
    key with value [false], or with value [undefined], prefers none: the
    key then counts as set and its value reads as false.  With no builtin
    preferred, a request that passes the gate is probed like any other,
    builtin or not, in both variants. *)
Theorem X12_prefer_builtins_key (userOptions : Options) (env : Env)
    (rawImportee : string) (importer : option string) :
  (o_preferBuiltins userOptions = Absent ->
   Src.preferImporteeIsBuiltin userOptions (Src.importPath rawImportee) = true
   /\ Pkg.preferImporteeIsBuiltin userOptions (Pkg.importPath rawImportee) = true)
  /\ (o_preferBuiltins userOptions = Undefined
      \/ o_preferBuiltins userOptions = Present (PBBool false) ->
      (Src.gateRejects userOptions env (Src.importPath rawImportee) importer = false ->
       List.map snd (engineCalls (events (Src.resolveLikeNode userOptions env rawImportee
                                            importer)))
       = Src.importSpecifierList userOptions (Src.importPath rawImportee) importer)
      /\ (Pkg.gateRejects userOptions env (Pkg.importPath rawImportee) importer = false ->
          List.map snd (engineCalls (events (Pkg.resolveLikeNode userOptions env rawImportee
                                               importer)))
          = Pkg.importSpecifierList (Pkg.importPath rawImportee) importer)).
Proof.
  split.
  - intros H.
    unfold Src.preferImporteeIsBuiltin, Src.preferBuiltins, Src.isPreferBuiltinsSet,
      Pkg.preferImporteeIsBuiltin, Pkg.preferBuiltins, Pkg.isPreferBuiltinsSet,
      Src.options, Pkg.options, spreadOptions.
    cbn [o_preferBuiltins Src.defaultOptions Pkg.defaultOptions]. rewrite H.
    split; reflexivity.
  - intros H.
    assert (Es : forall x, Src.preferImporteeIsBuiltin userOptions x = false).
    { intros x.
      unfold Src.preferImporteeIsBuiltin, Src.preferBuiltins, Src.isPreferBuiltinsSet,
        Src.options, spreadOptions.
      cbn [o_preferBuiltins Src.defaultOptions].
      destruct H as [H|H]; rewrite H; reflexivity. }
    assert (Ep : forall x, Pkg.preferImporteeIsBuiltin userOptions x = false).
    { intros x.
      unfold Pkg.preferImporteeIsBuiltin, Pkg.preferBuiltins, Pkg.isPreferBuiltinsSet,
        Pkg.options, spreadOptions.
      cbn [o_preferBuiltins Pkg.defaultOptions].
      destruct H as [H|H]; rewrite H; reflexivity. }
    split; intros Hgate.
    + assert (Hpre : Src.importeeIsBuiltin userOptions env (Src.importPath rawImportee)
                     && Src.preferImporteeIsBuiltin userOptions (Src.importPath rawImportee)
                     = false) by (rewrite Es; apply andb_false_r).
      rewrite (proj1 (Src_resolveLikeNode_probed userOptions env rawImportee importer
                        Hgate Hpre)).
      rewrite map_map. cbn [snd]. apply map_id.
    + assert (Hpre : Pkg.importeeIsBuiltin userOptions env (Pkg.importPath rawImportee)
                     && Pkg.preferImporteeIsBuiltin userOptions (Pkg.importPath rawImportee)
                     = false) by (rewrite Ep; apply andb_false_r).
      rewrite (proj1 (Pkg_resolveLikeNode_probed userOptions env rawImportee importer
                        Hgate Hpre)).
      rewrite map_map. cbn [snd]. apply map_id.
Qed.

(** X12 for an import of [fs] under
    [{ builtinModules: true, preferBuiltins: false }]: the builtin is sent
    to the resolver. *)
Lemma X12_prefer_builtins_key_witness :
  List.map snd
    (engineCalls
       (events (Pkg.resolveLikeNode
                  {| o_extensions := Absent; o_conditionNames := Absent;
                     o_mainFields := Absent; o_exportsFields := Absent;
                     o_mainFiles := Absent; o_extensionAlias := Absent;
                     o_builtinModules := Present true; o_rootDir := Absent;
                     o_preferBuiltins := Present (PBBool false);
                     o_resolveOnly := Absent |}
                  (Fixture.build ["src/index.js"]) "fs" (Some "/proj/src/a.js"))))
  = ["fs"]
  /\ Pkg.preferImporteeIsBuiltin noOptions "fs" = true.
Proof.
  split.
  - exact (proj2 (proj2 (X12_prefer_builtins_key
                           {| o_extensions := Absent; o_conditionNames := Absent;
                              o_mainFields := Absent; o_exportsFields := Absent;
                              o_mainFiles := Absent; o_extensionAlias := Absent;
                              o_builtinModules := Present true; o_rootDir := Absent;
                              o_preferBuiltins := Present (PBBool false);
                              o_resolveOnly := Absent |}
                           (Fixture.build ["src/index.js"]) "fs" (Some "/proj/src/a.js"))
                        (or_intror eq_refl))
                 eq_refl).
  - exact (proj2 (proj1 (X12_prefer_builtins_key noOptions (Fixture.build ["src/index.js"])
                           "fs" (Some "/proj/src/a.js")) eq_refl)).
Defined.

(** ** The hook and the host *)

Lemma not_sentinel (importee : string) :
  hasNul importee = false -> String.eqb importee ES6_BROWSER_EMPTY = false.
Proof.
  intros H. destruct (String.eqb_spec importee ES6_BROWSER_EMPTY) as [E|E]; [|reflexivity].
  subst importee. discriminate H.
Qed.

(** [resolveLikeNode] itself never calls the host. *)
Lemma Src_resolveLikeNode_no_host_call (userOptions : Options) (env : Env)
    (rawImportee : string) (importer : option string) :
  hostCalls (events (Src.resolveLikeNode userOptions env rawImportee importer)) = [].
Proof.
  unfold Src.resolveLikeNode.
  destruct (Src.gateRejects userOptions env (Src.importPath rawImportee) importer).
  - destruct (Js.includes (normalizeInput (input env)) (Src.importPath rawImportee));
      reflexivity.
  - destruct (Src.importeeIsBuiltin userOptions env (Src.importPath rawImportee)
              && Src.preferImporteeIsBuiltin userOptions (Src.importPath rawImportee));
      [reflexivity|].
    rewrite !events_bind, !hostCalls_app.
    rewrite (proj2 (Src_probe_quiet env _ _ None)).
    destruct (result (Src.probe env _ _ None)) as [r|]; simpl.
    + destruct (Js.truthyOpt (error r)); reflexivity.
    + reflexivity.
Qed.

Lemma Pkg_resolveLikeNode_no_host_call (userOptions : Options) (env : Env)
    (rawImportee : string) (importer : option string) :
  hostCalls (events (Pkg.resolveLikeNode userOptions env rawImportee importer)) = [].
Proof.
  unfold Pkg.resolveLikeNode.
  destruct (Pkg.gateRejects userOptions env (Pkg.importPath rawImportee) importer).
  - destruct (Js.includes (normalizeInput (input env)) (Pkg.importPath rawImportee));
      reflexivity.
  - destruct (Pkg.importeeIsBuiltin userOptions env (Pkg.importPath rawImportee)
              && Pkg.preferImporteeIsBuiltin userOptions (Pkg.importPath rawImportee));
      [reflexivity|].
    rewrite !events_bind, !hostCalls_app.
    rewrite (proj2 (Pkg_probe_quiet env _ _ _ None)).
    destruct (result (Pkg.probe env _ _ _ None)) as [r|]; [|reflexivity].
    destruct (Js.startsWith (Js.toString (error r)) "Builtin module");
      destruct (Js.truthyOpt (error r)); reflexivity.
Qed.

(** X13.  A request that carries an already resolved record in
    [custom['node-resolve']], as the plugin's own re-submission does, is
    answered with that record at once: nothing is classified, resolved or
    re-submitted, whatever the specifier (non-empty, without NUL) and the
    importer are. *)
Theorem X13_already_resolved_is_returned (userOptions : Options) (env : Env)
    (importee : string) (importer : option string) (resolveOptions : ResolveOptions)
    (alreadyResolved : ResolvedId) :
  Js.truthy importee = true ->
  hasNul importee = false ->
  nrResolved resolveOptions = Some alreadyResolved ->
  Src.handler userOptions env importee importer resolveOptions = (ORec alreadyResolved, [])
  /\ Pkg.handler userOptions env importee importer resolveOptions
     = (ORec alreadyResolved, []).
Proof.
  intros Ht Hn Hr. unfold Src.handler, Pkg.handler.
  rewrite (not_sentinel importee Hn), Ht, Hn, Hr. split; reflexivity.
Qed.

(** X13 at the plugin's own re-submission of [/proj/foo.js]. *)
Lemma X13_already_resolved_witness :
  Src.handler noOptions (Fixture.build ["src/index.js"]) "/proj/foo.js"
    (Some "/proj/src/a.js")
    (Src.reResolveOptions Fixture.freshRequest (idOnly "/proj/foo.js") "./foo")
  = (ORec (idOnly "/proj/foo.js"), []).
Proof.
  exact (proj1 (X13_already_resolved_is_returned noOptions (Fixture.build ["src/index.js"])
                  "/proj/foo.js" (Some "/proj/src/a.js")
                  (Src.reResolveOptions Fixture.freshRequest (idOnly "/proj/foo.js") "./foo")
                  (idOnly "/proj/foo.js") eq_refl eq_refl eq_refl)).
Defined.

(** X14.  A request that passes the hook's guards calls the host's
    [this.resolve] exactly once when [resolveLikeNode] answered with a
    record, with that record's id and the importer as the hook passes it
    on, and never otherwise (null or false are handed back as they are). *)
Theorem X14_host_called_once_for_a_record (userOptions : Options) (env : Env)
    (importee : string) (importer : option string) (resolveOptions : ResolveOptions) :
  let passedOn := match importer with
                  | Some i => if hasNul i then None else Some i
                  | None => None
                  end in
  Js.truthy importee = true ->
  hasNul importee = false ->
  nrResolved resolveOptions = None ->
  hostCalls (events (Src.handler userOptions env importee importer resolveOptions))
  = match result (Src.resolveLikeNode userOptions env importee passedOn) with
    | ORec r => [(id r, passedOn)]
    | _ => []
    end
  /\ hostCalls (events (Pkg.handler userOptions env importee importer resolveOptions))
     = match result (Pkg.resolveLikeNode userOptions env importee passedOn) with
       | ORec r => [(id r, passedOn)]
       | _ => []
       end.
Proof.
  intros passedOn Ht Hn Hr. unfold Src.handler, Pkg.handler. fold passedOn.
  rewrite (not_sentinel importee Hn), Ht, Hn, Hr. cbn [negb].
  rewrite !events_bind, !hostCalls_app.
  rewrite Src_resolveLikeNode_no_host_call, Pkg_resolveLikeNode_no_host_call.
  split.
  - destruct (result (Src.resolveLikeNode userOptions env importee passedOn)) as [| |s|r];
      try reflexivity.
    rewrite events_bind, hostCalls_app.
    destruct (hostResolve env (id r) passedOn _) as [rr|]; [|reflexivity].
    destruct (isExternal rr); [|destruct (negb (String.eqb (id rr) (id r)))]; reflexivity.
  - destruct (result (Pkg.resolveLikeNode userOptions env importee passedOn)) as [| |s|r];
      try reflexivity.
    rewrite events_bind, hostCalls_app.
    destruct (hostResolve env (id r) passedOn _) as [rr|]; [|reflexivity].
    destruct (isExternal rr); [|destruct (negb (String.eqb (id rr) (id r)))]; reflexivity.
Qed.

(** X14 at the import of [./foo] from [/proj/src/a.js]: one call, for
    the resolved id. *)
Lemma X14_host_called_once_witness :
  hostCalls (events (Src.handler noOptions (Fixture.build ["src/index.js"]) "./foo"
                       (Some "/proj/src/a.js") Fixture.freshRequest))
  = [("/proj/foo.js", Some "/proj/src/a.js")].
Proof.
  etransitivity.
  - exact (proj1 (X14_host_called_once_for_a_record noOptions
                    (Fixture.build ["src/index.js"]) "./foo"
                    (Some "/proj/src/a.js") Fixture.freshRequest
                    eq_refl eq_refl eq_refl)).
  - vm_compute. reflexivity.
Defined.

(** The records of [src/index.ts] carry an id and nothing else, and
    [resolveLikeNode] never answers with a bare string. *)
Lemma Src_result_shape (userOptions : Options) (env : Env)
    (rawImportee : string) (importer : option string) :
  match result (Src.resolveLikeNode userOptions env rawImportee importer) with
  | ORec r => r = idOnly (id r)
  | OStr _ => False
  | _ => True
  end.
Proof.
  destruct (Src.gateRejects userOptions env (Src.importPath rawImportee) importer) eqn:Hgate.
  - rewrite (Src_outcome_when_gated userOptions env rawImportee importer Hgate).
    destruct (Js.includes (normalizeInput (input env)) (Src.importPath rawImportee));
      exact I.
  - destruct (Src.importeeIsBuiltin userOptions env (Src.importPath rawImportee)
              && Src.preferImporteeIsBuiltin userOptions (Src.importPath rawImportee))
      eqn:Hpre.
    + unfold Src.resolveLikeNode. rewrite Hgate, Hpre. exact I.
    + rewrite (proj2 (Src_resolveLikeNode_probed userOptions env rawImportee importer
                        Hgate Hpre)).
      reflexivity.
Qed.

Lemma Pkg_result_shape (userOptions : Options) (env : Env)
    (rawImportee : string) (importer : option string) :
  match result (Pkg.resolveLikeNode userOptions env rawImportee importer) with
  | OStr _ => False
  | _ => True
  end.
Proof.
  destruct (Pkg.gateRejects userOptions env (Pkg.importPath rawImportee) importer) eqn:Hgate.
  - rewrite (Pkg_outcome_when_gated userOptions env rawImportee importer Hgate).
    destruct (Js.includes (normalizeInput (input env)) (Pkg.importPath rawImportee));
      exact I.
  - destruct (Pkg.importeeIsBuiltin userOptions env (Pkg.importPath rawImportee)
              && Pkg.preferImporteeIsBuiltin userOptions (Pkg.importPath rawImportee))
      eqn:Hpre.
    + unfold Pkg.resolveLikeNode. rewrite Hgate, Hpre. exact I.
    + rewrite (proj2 (Pkg_resolveLikeNode_probed userOptions env rawImportee importer
                        Hgate Hpre)).
      match goal with |- match (if ?b then _ else _) with _ => _ end => destruct b end;
        exact I.
Qed.

(** X15.  When the host's resolution chain answers a re-submitted id with
    the record it was resolved to (what this plugin answers on re-entry),
    the hook of [src/index.ts] hands back exactly what [resolveLikeNode]
    answered; the hook of the other variant does too, except that a record
    flagged external, such as the one of its builtin pre-check, comes back
    as false. *)
Theorem X15_hook_under_echoing_host (userOptions : Options) (env : Env)
    (importee : string) (importer : option string) (resolveOptions : ResolveOptions) :
  let passedOn := match importer with
                  | Some i => if hasNul i then None else Some i
                  | None => None
                  end in
  (forall source from o, hostResolve env source from o = nrResolved o) ->
  Js.truthy importee = true ->
  hasNul importee = false ->
  nrResolved resolveOptions = None ->
  result (Src.handler userOptions env importee importer resolveOptions)
  = result (Src.resolveLikeNode userOptions env importee passedOn)
  /\ result (Pkg.handler userOptions env importee importer resolveOptions)
     = match result (Pkg.resolveLikeNode userOptions env importee passedOn) with
       | ORec r => if isExternal r then OFalse else ORec r
       | o => o
       end.
Proof.
  intros passedOn Hhost Ht Hn Hr. unfold Src.handler, Pkg.handler. fold passedOn.
  rewrite (not_sentinel importee Hn), Ht, Hn, Hr. cbn [negb].
  rewrite !result_bind. split.
  - pose proof (Src_result_shape userOptions env importee passedOn) as Hshape.
    destruct (result (Src.resolveLikeNode userOptions env importee passedOn)) as [| |s|r];
      try reflexivity.
    rewrite result_bind, Hhost. cbn [nrResolved Src.reResolveOptions].
    rewrite Hshape. cbn [isExternal external idOnly id]. rewrite String.eqb_refl.
    reflexivity.
  - destruct (result (Pkg.resolveLikeNode userOptions env importee passedOn)) as [| |s|r];
      try reflexivity.
    rewrite result_bind, Hhost. cbn [nrResolved Pkg.reResolveOptions].
    destruct (isExternal r); [reflexivity|].
    rewrite String.eqb_refl. destruct r; reflexivity.
Qed.

(** X15 at the import of [fs] under the default options: the External
    record of the pre-check reaches the host as false. *)
Lemma X15_hook_under_echoing_host_witness :
  result (Pkg.handler noOptions (Fixture.build ["src/index.js"]) "fs"
            (Some "/proj/src/a.js") Fixture.freshRequest)
  = OFalse.
Proof.
  etransitivity.
  - exact (proj2 (X15_hook_under_echoing_host noOptions (Fixture.build ["src/index.js"])
                    "fs" (Some "/proj/src/a.js") Fixture.freshRequest
                    (fun _ _ _ => eq_refl) eq_refl eq_refl eq_refl)).
  - vm_compute. reflexivity.
Defined.

(** ** Condition names *)

Lemma includes_snoc (l : list string) (x y : string) :
  Js.includes (l ++ [x]) y = Js.includes l y || String.eqb x y.
Proof.
  induction l as [|z l IH]; simpl.
  - rewrite orb_false_r. reflexivity.
  - rewrite IH, orb_assoc. reflexivity.
Qed.

Lemma modeOf_cases (nodeEnv : option string) :
  Conditions.modeOf nodeEnv = "development" \/ Conditions.modeOf nodeEnv = "production".
Proof.
  unfold Conditions.modeOf.
  destruct (Js.truthyOpt nodeEnv && negb (String.eqb (Js.toString nodeEnv) "production"));
    [left | right]; reflexivity.
Qed.

Lemma pushMode_has_mode (nodeEnv : option string) (conditionNames : list string) :
  Js.includes (Conditions.pushMode nodeEnv conditionNames) "development"
  || Js.includes (Conditions.pushMode nodeEnv conditionNames) "production" = true.
Proof.
  unfold Conditions.pushMode.
  destruct (Js.includes conditionNames "development") eqn:D;
    [cbn [negb andb]; rewrite D; reflexivity|].
  destruct (Js.includes conditionNames "production") eqn:P; cbn [negb andb].
  - rewrite D, P. reflexivity.
  - rewrite !includes_snoc, D, P.
    destruct (modeOf_cases nodeEnv) as [E|E]; rewrite E; reflexivity.
Qed.

Lemma pushMode_fixed (nodeEnv : option string) (conditionNames : list string) :
  Js.includes conditionNames "development" || Js.includes conditionNames "production" = true ->
  Conditions.pushMode nodeEnv conditionNames = conditionNames.
Proof.
  intros H. unfold Conditions.pushMode.
  apply orb_true_iff in H. destruct H as [H|H]; rewrite H;
    [|rewrite andb_false_r]; reflexivity.
Qed.

(** X16.  After the plugin is set up the condition names hold
    [development] or [production]: the original names are kept in place
    and at most one name is pushed after them, [development] only when
    [NODE_ENV] is set, non-empty and not [production]; nothing is pushed
    when either mode is already there, so a second set-up on the same array
    changes nothing, whatever [NODE_ENV] is by then. *)
Theorem X16_mode_condition (nodeEnv nodeEnv' : option string)
    (conditionNames : list string) :
  Js.includes (Conditions.pushMode nodeEnv conditionNames) "development"
  || Js.includes (Conditions.pushMode nodeEnv conditionNames) "production" = true
  /\ (Conditions.pushMode nodeEnv conditionNames = conditionNames
      \/ Conditions.pushMode nodeEnv conditionNames
         = conditionNames ++ [Conditions.modeOf nodeEnv])
  /\ (Conditions.modeOf nodeEnv = "development"
      <-> exists v, nodeEnv = Some v /\ v <> "" /\ v <> "production")
  /\ Conditions.pushMode nodeEnv' (Conditions.pushMode nodeEnv conditionNames)
     = Conditions.pushMode nodeEnv conditionNames.
Proof.
  split; [apply pushMode_has_mode|]. split; [|split].
  - unfold Conditions.pushMode.
    destruct (negb (Js.includes conditionNames "development")
              && negb (Js.includes conditionNames "production")); [right | left];
      reflexivity.
  - unfold Conditions.modeOf. destruct nodeEnv as [v|]; cbn [Js.truthyOpt Js.toString].
    + destruct v as [|c v]; cbn [Js.truthy andb].
      * split; [discriminate | intros [w [E [Hne _]]]; injection E as E; subst w;
                               contradiction Hne; reflexivity].
      * destruct (String.eqb_spec (String c v) "production") as [E|E]; cbn [negb].
        -- split; [discriminate|]. intros [w [Ew [_ Hp]]]. injection Ew as Ew. subst w.
           contradiction.
        -- split; [|reflexivity]. intros _. exists (String c v).
           split; [reflexivity|]. split; [discriminate | exact E].
    + split; [discriminate | intros [w [E _]]; discriminate E].
  - apply pushMode_fixed. apply pushMode_has_mode.
Qed.

Lemma pushBrowser_keeps_mode (b : bool) (l : list string) :
  Js.includes (Conditions.pushBrowser b l) "development" = Js.includes l "development"
  /\ Js.includes (Conditions.pushBrowser b l) "production" = Js.includes l "production".
Proof.
  unfold Conditions.pushBrowser.
  destruct (b && negb (Js.includes l "browser")); [|split; reflexivity].
  rewrite !includes_snoc. split; apply orb_false_r.
Qed.

(** X17.  Two plugin instances created without a [conditionNames] option
    work on one array, the one of [defaultOptions]: the second instance
    finds the mode the first one pushed and keeps it, whatever [NODE_ENV]
    is by then, and in the variant listed after the README it also keeps
    a [browser] the first one pushed, whatever its own [mainFields] are.
    An instance given its own [conditionNames], or an explicit
    [undefined], leaves the shared array as it was. *)
Theorem X17_default_condition_names_are_shared (first second : Options)
    (nodeEnv nodeEnv' : option string) (shared : list string) :
  (o_conditionNames first = Absent -> o_conditionNames second = Absent ->
   Conditions.srcSetup second nodeEnv' (snd (Conditions.srcSetup first nodeEnv shared))
   = Conditions.srcSetup first nodeEnv shared
   /\ fst (Conditions.pkgSetup second nodeEnv'
             (snd (Conditions.pkgSetup first nodeEnv shared)))
      = Conditions.pushBrowser
          (Conditions.useBrowserOverrides Pkg.defaultOptions second)
          (fst (Conditions.pkgSetup first nodeEnv shared))
   /\ (Js.includes (fst (Conditions.pkgSetup first nodeEnv shared)) "browser" = true ->
       Conditions.pkgSetup second nodeEnv'
         (snd (Conditions.pkgSetup first nodeEnv shared))
       = Conditions.pkgSetup first nodeEnv shared))
  /\ (o_conditionNames first <> Absent ->
      snd (Conditions.srcSetup first nodeEnv shared) = shared
      /\ snd (Conditions.pkgSetup first nodeEnv shared) = shared).
Proof.
  split.
  - intros H1 H2. unfold Conditions.srcSetup, Conditions.pkgSetup. rewrite H1, H2.
    cbn [fst snd].
    assert (Hmode : forall b,
               Conditions.pushMode nodeEnv'
                 (Conditions.pushBrowser b (Conditions.pushMode nodeEnv shared))
               = Conditions.pushBrowser b (Conditions.pushMode nodeEnv shared)).
    { intros b. apply pushMode_fixed.
      destruct (pushBrowser_keeps_mode b (Conditions.pushMode nodeEnv shared)) as [D P].
      rewrite D, P. apply pushMode_has_mode. }
    split; [|split].
    + rewrite (pushMode_fixed nodeEnv' _ (pushMode_has_mode nodeEnv shared)). reflexivity.
    + rewrite Hmode. reflexivity.
    + intros Hb. rewrite Hmode.
      unfold Conditions.pushBrowser at 1 3. rewrite Hb, andb_false_r. reflexivity.
  - intros H. unfold Conditions.srcSetup, Conditions.pkgSetup.
    destruct (o_conditionNames first); [contradiction H; reflexivity| |];
      split; reflexivity.
Qed.

(** X17 for two default instances of [src/index.ts], the first created
    with [NODE_ENV] unset and the second under [NODE_ENV=development]:
    both resolve under [production]. *)
Lemma X17_default_condition_names_witness :
  Conditions.srcSetup noOptions (Some "development")
    (snd (Conditions.srcSetup noOptions None ["default"; "module"; "import"; "require"]))
  = (["default"; "module"; "import"; "require"; "production"],
     ["default"; "module"; "import"; "require"; "production"]).
Proof.
  etransitivity.
  - exact (proj1 (proj1 (X17_default_condition_names_are_shared noOptions noOptions
                           None (Some "development")
                           ["default"; "module"; "import"; "require"])
                        eq_refl eq_refl)).
  - reflexivity.
Defined.

(** ** The sentinel and the load hook *)

(** X18.  The hook answers with a bare string exactly for the
    empty-module sentinel, and the string is the sentinel itself; the load
    hook serves the empty module for that id and defers for every other
    id.  In both variants. *)
Theorem X18_sentinel_is_the_only_string (userOptions : Options) (env : Env)
    (importee : string) (importer : option string) (resolveOptions : ResolveOptions) :
  match result (Src.handler userOptions env importee importer resolveOptions) with
  | OStr s => importee = ES6_BROWSER_EMPTY /\ s = ES6_BROWSER_EMPTY
  | _ => importee <> ES6_BROWSER_EMPTY
  end
  /\ match result (Pkg.handler userOptions env importee importer resolveOptions) with
     | OStr s => importee = ES6_BROWSER_EMPTY /\ s = ES6_BROWSER_EMPTY
     | _ => importee <> ES6_BROWSER_EMPTY
     end
  /\ load ES6_BROWSER_EMPTY = Some "export default {};"
  /\ (load importee = None <-> importee <> ES6_BROWSER_EMPTY).
Proof.
  assert (Hload : load importee = None <-> importee <> ES6_BROWSER_EMPTY).
  { unfold load. destruct (String.eqb_spec importee ES6_BROWSER_EMPTY) as [E|E].
    - split; [discriminate | intros H; contradiction].
    - split; [intros _; exact E | reflexivity]. }
  split; [|split; [|split; [reflexivity | exact Hload]]].
  - unfold Src.handler.
    destruct (String.eqb_spec importee ES6_BROWSER_EMPTY) as [E|E];
      [split; [exact E | exact E]|].
    destruct (negb (Js.truthy importee)); [exact E|].
    destruct (hasNul importee); [exact E|].
    destruct (nrResolved resolveOptions); [exact E|].
    rewrite result_bind.
    match goal with
    | |- context [Src.resolveLikeNode userOptions env importee ?i] =>
        pose proof (Src_result_shape userOptions env importee i) as Hshape;
        destruct (result (Src.resolveLikeNode userOptions env importee i)) as [| |s|r]
    end; try exact E; [contradiction|].
    rewrite result_bind.
    destruct (hostResolve env _ _ _) as [rr|]; [|exact E].
    destruct (isExternal rr); [|destruct (negb (String.eqb (id rr) (id r)))]; exact E.
  - unfold Pkg.handler.
    destruct (String.eqb_spec importee ES6_BROWSER_EMPTY) as [E|E];
      [split; [exact E | exact E]|].
    destruct (negb (Js.truthy importee)); [exact E|].
    destruct (hasNul importee); [exact E|].
    destruct (nrResolved resolveOptions); [exact E|].
    rewrite result_bind.
    match goal with
    | |- context [Pkg.resolveLikeNode userOptions env importee ?i] =>
        pose proof (Pkg_result_shape userOptions env importee i) as Hshape;
        destruct (result (Pkg.resolveLikeNode userOptions env importee i)) as [| |s|r]
    end; try exact E; [contradiction|].
    rewrite result_bind.
    destruct (hostResolve env _ _ _) as [rr|]; [|exact E].
    destruct (isExternal rr); [|destruct (negb (String.eqb (id rr) (id r)))]; exact E.
Qed.

(** ** The root fallback and the default extensions *)

(** X19.  At a graph root the [./] form of the specifier is the second
    and last candidate unless the specifier starts with a slash; the
    variant listed after the README also leaves an empty specifier alone,
    where [src/index.ts] adds the candidate [./].  With an importer,
    whatever it is, the variant listed after the README probes the
    specifier alone. *)
Theorem X19_root_fallback_condition (userOptions : Options) (importee importer : string) :
  Src.importSpecifierList userOptions importee None
  = (if Js.startsWith importee "/" then [importee] else [importee; "./" +++ importee])
  /\ Pkg.importSpecifierList importee None
     = (if Js.truthy importee && negb (Js.startsWith importee "/")
        then [importee; "./" +++ importee] else [importee])
  /\ Src.importSpecifierList userOptions "" None = [""; "./"]
  /\ Pkg.importSpecifierList "" None = [""]
  /\ Pkg.importSpecifierList importee (Some importer) = [importee].
Proof.
  split; [apply Src_root_candidates|]. split; [apply Pkg_root_candidates|].
  repeat split.
Qed.

(** X20.  In [src/index.ts], when [extensions] lists none of [.ts],
    [.tsx], [.mts], [.cts], as is the case under the default options, a
    request with an importer probes the specifier alone, TypeScript
    importer or not. *)
Theorem X20_no_ts_extension_no_variant (userOptions : Options)
    (importee importer : string) :
  Js.includes (Src.extensions userOptions) ".ts" = false ->
  Js.includes (Src.extensions userOptions) ".tsx" = false ->
  Js.includes (Src.extensions userOptions) ".mts" = false ->
  Js.includes (Src.extensions userOptions) ".cts" = false ->
  Src.importSpecifierList userOptions importee (Some importer) = [importee].
Proof.
  intros H1 H2 H3 H4.
  destruct (isTypeScriptFile importer) eqn:T.
  - rewrite (Src_ts_candidates userOptions importee importer T).
    unfold Src.tsExtensionPairs, applicablePair. cbn [List.filter fst snd].
    rewrite H1, H2, H3, H4, !andb_false_r. reflexivity.
  - unfold Src.importSpecifierList. cbn [Js.toString andb]. rewrite T, andb_false_r.
    reflexivity.
Qed.

(** X20 under the default options, for [./b.js] imported from
    [/proj/src/a.ts]. *)
Lemma X20_no_ts_extension_witness :
  Src.importSpecifierList noOptions "./b.js" (Some "/proj/src/a.ts") = ["./b.js"].
Proof.
  exact (X20_no_ts_extension_no_variant noOptions "./b.js" "/proj/src/a.ts"
           eq_refl eq_refl eq_refl eq_refl).
Defined.

(** ** The query suffix in the variant listed after the README *)

Lemma Pkg_importPath_idempotent (s : string) :
  Pkg.importPath (Pkg.importPath s) = Pkg.importPath s
  /\ Pkg.importSuffix (Pkg.importPath s) = "".
Proof.
  unfold Pkg.importSuffix, Pkg.importPath.
  rewrite (splitQuery_no_query _ (importPath_no_query s)). split; reflexivity.
Qed.

(** X21.  In the variant listed after the README every request is
    answered as the request for the text before the first [?] is, with the
    same log; the query suffix is appended to the id of a record resolved
    from a path, and is not appended to an External record, whose id stays
    the bare package name. *)
Theorem X21_pkg_query_suffix (userOptions : Options) (env : Env)
    (rawImportee : string) (importer : option string) :
  Pkg.resolveLikeNode userOptions env rawImportee importer
  = (match result (Pkg.resolveLikeNode userOptions env (Pkg.importPath rawImportee)
                     importer) with
     | ORec r => if isExternal r then ORec r
                 else appendToId (Pkg.importSuffix rawImportee) (ORec r)
     | other => other
     end,
     events (Pkg.resolveLikeNode userOptions env (Pkg.importPath rawImportee) importer)).
Proof.
  unfold Pkg.resolveLikeNode.
  destruct (Pkg_importPath_idempotent rawImportee) as [E1 E2]. rewrite E1, E2.
  destruct (Pkg.gateRejects userOptions env (Pkg.importPath rawImportee) importer).
  - destruct (Js.includes (normalizeInput (input env)) (Pkg.importPath rawImportee));
      reflexivity.
  - destruct (Pkg.importeeIsBuiltin userOptions env (Pkg.importPath rawImportee)
              && Pkg.preferImporteeIsBuiltin userOptions (Pkg.importPath rawImportee));
      [reflexivity|].
    destruct (Pkg.probe env _ _ _ None) as [[r|] l]; unfold bind, result, events;
      [|reflexivity].
    destruct (Js.startsWith (Js.toString (error r)) "Builtin module");
      destruct (Js.truthyOpt (error r)); simpl; rewrite ?append_empty_r; reflexivity.
Qed.
